(** * OwOCap - utils/clipboard_manager.py

    A shallow embedding of [ClipboardManager] and of the module-level
    helpers that wrap it.  The Python methods are transcribed as
    computations in a state-and-exception monad over an explicit
    [World]: the OS clipboard, the hidden Tk windows, the Python heap
    holding manager objects and the module global [_clipboard_instance].

    The three backends (pyperclip, win32clipboard, tkinter) and Pillow
    are host libraries: the module only calls them.  Their behaviour is
    given by a small reference model (the [do_...] definitions); every
    host call is recorded in the world's [log] together with its outcome
    and may be made to raise by the world's [faults] plan, so statements
    quantified over worlds cover arbitrary host failures.  What the
    machine has installed and what its files decode to is the world's
    [cfg], which no operation changes.

    The [print] diagnostics of the source are not modelled. *)

From Stdlib Require Import List String Ascii Bool Arith ZArith NArith QArith Qminmax Lia.
From Stdlib Require Import Strings.Byte.
Import ListNotations.

Set Implicit Arguments.
Local Close Scope Q_scope.
Local Open Scope string_scope.
Local Open Scope list_scope.

(** ** Python-side data *)

(** [PIL.Image.Image]: a mode tag, the size and the raw sample bytes
    (row-major, top row first). *)
Inductive Mode := ModeRGB | ModeRGBA | ModeL | ModeF | ModeI | ModeP.

Record Image := mkImage {
  mode   : Mode;
  width  : nat;
  height : nat;
  pixels : list byte
}.

(** [numpy.ndarray]: element type, shape and the samples.  Integer
    samples are rationals of denominator one; floating-point samples
    are modelled by the rational they denote (no NaN, no infinities). *)
Inductive DType := uint8 | int16 | int32 | int64 | float32 | float64.

Record ndarray := mkArray {
  dtype   : DType;
  shape   : list nat;
  samples : list Q
}.

(** The values a caller may pass to [save_text] / [save_image]. *)
Inductive PyObj :=
| PyNone
| PyInt (z : Z)
| PyFloat (q : Q)
| PyStr (s : string)
| PyBytes (b : list byte)
| PyImage (im : Image)
| PyArray (a : ndarray).

Definition Mode_eqb (a b : Mode) : bool :=
  match a, b with
  | ModeRGB, ModeRGB | ModeRGBA, ModeRGBA | ModeL, ModeL
  | ModeF, ModeF | ModeI, ModeI | ModeP, ModeP => true
  | _, _ => false
  end.

Definition DType_eqb (a b : DType) : bool :=
  match a, b with
  | uint8, uint8 | int16, int16 | int32, int32
  | int64, int64 | float32, float32 | float64, float64 => true
  | _, _ => false
  end.

(** Python truthiness of a [str]. *)
Definition str_truthy (s : string) : bool :=
  match s with EmptyString => false | String _ _ => true end.

(** ** The manager object

    The four attributes assigned by [__init__] that the methods read.
    [_tk_root] is the handle of the hidden Tk window, [None] when the
    toolkit could not be initialised. *)
Record ClipboardManager := mkManager {
  _has_win32     : bool;
  _has_pyperclip : bool;
  _has_tkinter   : bool;
  _tk_root       : option nat
}.

(** ** Host calls and the world *)

Inductive Library := FastTextLib | NativeApi | GuiToolkit | ImageLib.

Inductive ClipFormat := CF_UNICODETEXT | CF_DIB.

Inductive Call :=
| pyperclip_copy (t : string)
| pyperclip_paste
| OpenClipboard
| EmptyClipboard
| SetClipboardText (t : string)
| SetClipboardData (fmt : ClipFormat) (payload : list byte)
| IsClipboardFormatAvailable (fmt : ClipFormat)
| GetClipboardData (fmt : ClipFormat)
| CloseClipboard
| Tk_create
| Tk_withdraw (root : nat)
| Tk_clipboard_clear (root : nat)
| Tk_clipboard_append (root : nat) (t : string)
| Tk_update (root : nat)
| Tk_clipboard_get (root : nat)
| Tk_destroy (root : nat)
| Image_open_path (path : string)
| Image_open_bytes (b : list byte)
| Image_fromarray (a : ndarray)
| Image_convert_RGB (im : Image)
| Image_save_BMP (im : Image).

Definition library_of (c : Call) : Library :=
  match c with
  | pyperclip_copy _ | pyperclip_paste => FastTextLib
  | OpenClipboard | EmptyClipboard | SetClipboardText _
  | SetClipboardData _ _ | IsClipboardFormatAvailable _
  | GetClipboardData _ | CloseClipboard => NativeApi
  | Tk_create | Tk_withdraw _ | Tk_clipboard_clear _
  | Tk_clipboard_append _ _ | Tk_update _ | Tk_clipboard_get _
  | Tk_destroy _ => GuiToolkit
  | Image_open_path _ | Image_open_bytes _ | Image_fromarray _
  | Image_convert_RGB _ | Image_save_BMP _ => ImageLib
  end.

(** One entry of the call log: the call and whether it returned
    normally ([true]) or raised ([false]). *)
Record Event := mkEvent { ev_call : Call; ev_ok : bool }.

(** What the OS clipboard currently holds.  The clipboard keeps every
    format placed on it since it was last emptied, so a text and a DIB
    can be there together; [ClipOther] stands for content in formats
    the module never reads. *)
Inductive Clip :=
| ClipEmpty
| ClipText (s : string)
| ClipDib (payload : list byte)
| ClipTextAndDib (s : string) (payload : list byte)
| ClipOther.

(** The machine the process runs on: the numpy release, which backend
    modules can be imported, and what Pillow makes of files, byte
    buffers, arrays and images of another mode. *)
Record Config := mkConfig {
  np_version  : nat * nat;
  importable  : Library -> bool;
  decode_path : string -> option Image;
  decode_bytes : list byte -> option Image;
  array_image : ndarray -> option Image;
  rgb_pixels  : Image -> option (list byte)
}.

Record World := mkWorld {
  cfg         : Config;
  clip        : Clip;         (* content of the OS clipboard            *)
  clip_open   : bool;         (* this process holds the clipboard lock  *)
  tk_live     : list nat;     (* handles of the Tk windows still alive  *)
  tk_next     : nat;          (* next fresh window handle               *)
  faults      : list bool;    (* [true]: the next host call raises      *)
  log         : list Event;   (* host calls issued so far, oldest first *)
  heap        : list ClipboardManager;   (* manager objects, by id     *)
  _clipboard_instance : option nat       (* the module global          *)
}.

Definition set_clip (c : Clip) (w : World) : World :=
  mkWorld (cfg w) c (clip_open w) (tk_live w) (tk_next w) (faults w) (log w)
          (heap w) (_clipboard_instance w).

Definition set_clip_open (b : bool) (w : World) : World :=
  mkWorld (cfg w) (clip w) b (tk_live w) (tk_next w) (faults w) (log w)
          (heap w) (_clipboard_instance w).

Definition set_tk (live : list nat) (next : nat) (w : World) : World :=
  mkWorld (cfg w) (clip w) (clip_open w) live next (faults w) (log w)
          (heap w) (_clipboard_instance w).

Definition set_faults (fs : list bool) (w : World) : World :=
  mkWorld (cfg w) (clip w) (clip_open w) (tk_live w) (tk_next w) fs (log w)
          (heap w) (_clipboard_instance w).

Definition add_log (e : Event) (w : World) : World :=
  mkWorld (cfg w) (clip w) (clip_open w) (tk_live w) (tk_next w) (faults w)
          (log w ++ [e]) (heap w) (_clipboard_instance w).

Definition set_heap (h : list ClipboardManager) (w : World) : World :=
  mkWorld (cfg w) (clip w) (clip_open w) (tk_live w) (tk_next w) (faults w) (log w)
          h (_clipboard_instance w).

Definition set_instance (i : option nat) (w : World) : World :=
  mkWorld (cfg w) (clip w) (clip_open w) (tk_live w) (tk_next w) (faults w) (log w)
          (heap w) i.

(** ** Exceptions and the monad *)

Inductive Exn :=
| ImportError          (* a backend module is not installed            *)
| HostError (c : Call) (* the host call [c] raised                     *)
| AttributeError.      (* attribute access on [None]                   *)

Inductive Res (A : Type) :=
| Ok (a : A)
| Raise (e : Exn).
Arguments Ok {A} a.
Arguments Raise {A} e.

Definition M (A : Type) : Type := World -> Res A * World.

Definition ret {A} (a : A) : M A := fun w => (Ok a, w).

Definition raise {A} (e : Exn) : M A := fun w => (Raise e, w).

Definition bind {A B} (m : M A) (k : A -> M B) : M B :=
  fun w =>
    match m w with
    | (Ok a, w1) => k a w1
    | (Raise e, w1) => (Raise e, w1)
    end.

(** [try: m  except Exception as e: h e] (also the bare [except:]). *)
Definition try_except {A} (m : M A) (h : Exn -> M A) : M A :=
  fun w =>
    match m w with
    | (Ok a, w1) => (Ok a, w1)
    | (Raise e, w1) => h e w1
    end.

(** [try: m  except ImportError: h] : other exceptions propagate. *)
Definition try_except_ImportError {A} (m : M A) (h : M A) : M A :=
  fun w =>
    match m w with
    | (Raise ImportError, w1) => h w1
    | r => r
    end.

(** [try: m  finally: fin].  The finaliser runs on both exits; when it
    raises, its exception replaces the outcome of [m]. *)
Definition try_finally {A} (m : M A) (fin : M unit) : M A :=
  fun w =>
    match m w with
    | (r, w1) =>
        match fin w1 with
        | (Ok _, w2) => (r, w2)
        | (Raise e, w2) => (Raise e, w2)
        end
    end.

Declare Scope py_scope.
Delimit Scope py_scope with py.
Notation "x <- m ;; k" := (bind m (fun x => k))
  (at level 61, m at next level, right associativity) : py_scope.
Notation "m ;;; k" := (bind m (fun _ => k))
  (at level 61, right associativity) : py_scope.
Local Open Scope py_scope.

(** ** Reference model of the host libraries *)

(** The next entry of the fault plan; an exhausted plan means that no
    further call is made to fail. *)
Definition next_fault (w : World) : bool * World :=
  match faults w with
  | [] => (false, w)
  | b :: fs => (b, set_faults fs w)
  end.

(** A host call [c] whose normal behaviour is [sem]: [sem] returns
    [None] when the library itself rejects the call in the current
    state.  The call is logged with its outcome. *)
Definition host {A} (c : Call) (sem : World -> option (A * World)) : M A :=
  fun w =>
    let (f, w1) := next_fault w in
    if f then (Raise (HostError c), add_log (mkEvent c false) w1)
    else match sem w1 with
         | Some (a, w2) => (Ok a, add_log (mkEvent c true) w2)
         | None => (Raise (HostError c), add_log (mkEvent c false) w1)
         end.

Definition clip_text (c : Clip) : option string :=
  match c with
  | ClipText s | ClipTextAndDib s _ => Some s
  | _ => None
  end.

Definition clip_dib (c : Clip) : option (list byte) :=
  match c with
  | ClipDib p | ClipTextAndDib _ p => Some p
  | _ => None
  end.

(** Placing one format on the open clipboard leaves the other one
    there: only [EmptyClipboard] removes content. *)
Definition put_text (t : string) (c : Clip) : Clip :=
  match clip_dib c with
  | Some p => ClipTextAndDib t p
  | None => ClipText t
  end.

Definition put_dib (payload : list byte) (c : Clip) : Clip :=
  match clip_text c with
  | Some s => ClipTextAndDib s payload
  | None => ClipDib payload
  end.

(** pyperclip: [copy] empties the clipboard and places the text;
    [paste] returns the text, and the empty string when the clipboard
    holds no text. *)
Definition do_pyperclip_copy (t : string) : M unit :=
  host (pyperclip_copy t) (fun w => Some (tt, set_clip (ClipText t) w)).

Definition do_pyperclip_paste : M string :=
  host pyperclip_paste
       (fun w => Some (match clip_text (clip w) with
                       | Some s => s
                       | None => EmptyString
                       end, w)).

(** win32clipboard.  Apart from [OpenClipboard] and the format query,
    every call raises unless this process has the clipboard open. *)
Definition do_OpenClipboard : M unit :=
  host OpenClipboard (fun w => Some (tt, set_clip_open true w)).

Definition when_open {A} (w : World) (r : option (A * World)) :
  option (A * World) :=
  if clip_open w then r else None.

Definition do_EmptyClipboard : M unit :=
  host EmptyClipboard
       (fun w => when_open w (Some (tt, set_clip ClipEmpty w))).

Definition do_SetClipboardText (t : string) : M unit :=
  host (SetClipboardText t)
       (fun w => when_open w (Some (tt, set_clip (put_text t (clip w)) w))).

Definition do_SetClipboardData (fmt : ClipFormat) (payload : list byte)
  : M unit :=
  host (SetClipboardData fmt payload)
       (fun w => when_open w
          (Some (tt, set_clip (match fmt with
                               | CF_DIB => put_dib payload (clip w)
                               | CF_UNICODETEXT => ClipOther
                               end) w))).

Definition format_available (fmt : ClipFormat) (c : Clip) : bool :=
  match fmt with
  | CF_UNICODETEXT =>
      match clip_text c with Some _ => true | None => false end
  | CF_DIB =>
      match clip_dib c with Some _ => true | None => false end
  end.

Definition do_IsClipboardFormatAvailable (fmt : ClipFormat) : M bool :=
  host (IsClipboardFormatAvailable fmt)
       (fun w => Some (format_available fmt (clip w), w)).

(** Only the text format is ever read by the module. *)
Definition do_GetClipboardData (fmt : ClipFormat) : M string :=
  host (GetClipboardData fmt)
       (fun w => when_open w
          (match fmt, clip_text (clip w) with
           | CF_UNICODETEXT, Some s => Some (s, w)
           | _, _ => None
           end)).

Definition do_CloseClipboard : M unit :=
  host CloseClipboard
       (fun w => when_open w (Some (tt, set_clip_open false w))).

(** tkinter.  A call on a destroyed window raises [TclError]. *)
Definition alive (root : nat) (w : World) : bool :=
  existsb (Nat.eqb root) (tk_live w).

Definition when_alive {A} (root : nat) (w : World) (r : option (A * World))
  : option (A * World) :=
  if alive root w then r else None.

Definition do_Tk_create : M nat :=
  host Tk_create
       (fun w => Some (tk_next w,
                       set_tk (tk_next w :: tk_live w) (S (tk_next w)) w)).

Definition do_Tk_withdraw (root : nat) : M unit :=
  host (Tk_withdraw root) (fun w => when_alive root w (Some (tt, w))).

Definition do_Tk_clipboard_clear (root : nat) : M unit :=
  host (Tk_clipboard_clear root)
       (fun w => when_alive root w (Some (tt, set_clip ClipEmpty w))).

Definition do_Tk_clipboard_append (root : nat) (t : string) : M unit :=
  host (Tk_clipboard_append root t)
       (fun w => when_alive root w
          (Some (tt, set_clip (ClipText (match clip_text (clip w) with
                                         | Some s => s ++ t
                                         | None => t
                                         end)) w))).

Definition do_Tk_update (root : nat) : M unit :=
  host (Tk_update root) (fun w => when_alive root w (Some (tt, w))).

Definition do_Tk_clipboard_get (root : nat) : M string :=
  host (Tk_clipboard_get root)
       (fun w => when_alive root w
          (match clip_text (clip w) with
           | Some s => Some (s, w)
           | None => None
           end)).

Definition do_Tk_destroy (root : nat) : M unit :=
  host (Tk_destroy root)
       (fun w => when_alive root w
          (Some (tt, set_tk (filter (fun r => negb (Nat.eqb root r))
                                    (tk_live w))
                            (tk_next w) w))).

(** Pillow.  Opening, array import and mode conversion are decided by
    the machine's [cfg]; [None] there means that Pillow raises. *)
Definition do_Image_open_path (path : string) : M Image :=
  host (Image_open_path path)
       (fun w => option_map (fun im => (im, w)) (decode_path (cfg w) path)).

Definition do_Image_open_bytes (b : list byte) : M Image :=
  host (Image_open_bytes b)
       (fun w => option_map (fun im => (im, w)) (decode_bytes (cfg w) b)).

Definition do_Image_fromarray (a : ndarray) : M Image :=
  host (Image_fromarray a)
       (fun w => option_map (fun im => (im, w)) (array_image (cfg w) a)).

(** [image.convert('RGB')] keeps the size and yields an RGB image. *)
Definition do_Image_convert_RGB (im : Image) : M Image :=
  host (Image_convert_RGB im)
       (fun w => option_map
                   (fun px => (mkImage ModeRGB (width im) (height im) px, w))
                   (rgb_pixels (cfg w) im)).

(** *** The BMP writer

    [image.save(output, 'BMP')] for an RGB image, after Pillow's BMP
    plugin: the 14-byte file header, the 40-byte BITMAPINFOHEADER
    (one plane, 24 bits, no compression, 96 dpi = 3780 pixels per
    metre), then the rows bottom-up, each pixel as blue-green-red,
    each row padded with zero bytes to a multiple of four. *)
Definition byte_of_N (n : N) : byte :=
  match Byte.of_N (n mod 256) with
  | Some b => b
  | None => x00
  end.

Definition o16 (n : N) : list byte :=
  [byte_of_N n; byte_of_N (n / 256)].

Definition o32 (n : N) : list byte :=
  [byte_of_N n; byte_of_N (n / 256);
   byte_of_N (n / 65536); byte_of_N (n / 16777216)].

(** [((width * bits + 7) // 8 + 3) & ~3] with [bits = 24]. *)
Definition bmp_stride (w : nat) : nat :=
  ((w * 24 + 7) / 8 + 3) / 4 * 4.

Fixpoint bgr (row : list byte) : list byte :=
  match row with
  | r :: g :: b :: rest => b :: g :: r :: bgr rest
  | rest => rest
  end.

Fixpoint rows (n len : nat) (data : list byte) : list (list byte) :=
  match n with
  | O => []
  | S n' => firstn len data :: rows n' len (skipn len data)
  end.

Definition pad_to (stride : nat) (row : list byte) : list byte :=
  row ++ repeat x00 (stride - List.length row).

Definition bmp_raster (im : Image) : list byte :=
  List.concat (map (fun r => pad_to (bmp_stride (width im)) (bgr r))
              (rev (rows (height im) (3 * width im) (pixels im)))).

Definition bmp_image_size (im : Image) : N :=
  N.of_nat (bmp_stride (width im)) * N.of_nat (height im).

Definition bmp_file_header (im : Image) : list byte :=
  [x42; x4d] ++ o32 (14 + 40 + bmp_image_size im) ++ o32 0 ++ o32 (14 + 40).

Definition bmp_info_header (im : Image) : list byte :=
  o32 40 ++ o32 (N.of_nat (width im)) ++ o32 (N.of_nat (height im))
  ++ o16 1 ++ o16 24 ++ o32 0 ++ o32 (bmp_image_size im)
  ++ o32 3780 ++ o32 3780 ++ o32 0 ++ o32 0.

(** The writer refuses an image without pixels and a file larger than
    [2**32 - 1] bytes.  Only the RGB mode is modelled:
    [_save_image_windows] converts before it saves. *)
Definition bmp_encode (im : Image) : option (list byte) :=
  if Mode_eqb (mode im) ModeRGB then
    if (width im =? 0)%nat || (height im =? 0)%nat then None
    else if (4294967295 <? 14 + 40 + bmp_image_size im)%N then None
    else Some (bmp_file_header im ++ bmp_info_header im ++ bmp_raster im)
  else None.

Definition do_Image_save_BMP (im : Image) : M (list byte) :=
  host (Image_save_BMP im)
       (fun w => option_map (fun b => (b, w)) (bmp_encode im)).

(** *** numpy *)

(** Comparison of version tuples, [v >= u]. *)
Definition version_ge (v u : nat * nat) : bool :=
  (fst u <? fst v)%nat || ((fst u =? fst v)%nat && (snd u <=? snd v)%nat).

(** [np.clip(a, lo, hi)]: element-wise [minimum(maximum(x, lo), hi)]. *)
Definition clip_sample (lo hi x : Q) : Q := Qmin (Qmax x lo) hi.

Definition np_clip (a : ndarray) (lo hi : Q) : ndarray :=
  mkArray (dtype a) (shape a) (map (clip_sample lo hi) (samples a)).

(** [a.astype(np.uint8)]: the fractional part is dropped (truncation
    toward zero) and an integer is reduced modulo 256. *)
Definition Qtruncate (x : Q) : Z := Z.quot (Qnum x) (Zpos (Qden x)).

Definition to_uint8 (x : Q) : Q := inject_Z (Qtruncate x mod 256).

Definition astype_uint8 (a : ndarray) : ndarray :=
  mkArray uint8 (shape a) (map to_uint8 (samples a)).

(** ** ClipboardManager *)

(** [import m]: raises [ImportError] when [m] is not installed. *)
Definition import (m : Library) : M unit :=
  fun w => if importable (cfg w) m then (Ok tt, w) else (Raise ImportError, w).

(** A method call on [self._tk_root]. *)
Definition tk_root (self : ClipboardManager) : M nat :=
  match _tk_root self with
  | Some root => ret root
  | None => raise AttributeError
  end.

Definition __init__ : M ClipboardManager :=
  has_win32 <- try_except_ImportError
                 (import NativeApi ;;; ret true) (ret false) ;;
  has_pyperclip <- try_except_ImportError
                 (import FastTextLib ;;; ret true) (ret false) ;;
  tk <- try_except
          (import GuiToolkit ;;;
           root <- do_Tk_create ;;
           do_Tk_withdraw root ;;;
           ret (true, Some root))
          (fun _ => ret (false, None)) ;;
  ret (mkManager has_win32 has_pyperclip (fst tk) (snd tk)).

Definition save_text (self : ClipboardManager) (text : PyObj) : M bool :=
  match text with
  | PyStr t =>
      try_except
        (if _has_pyperclip self then
           do_pyperclip_copy t ;;; ret true
         else if _has_win32 self then
           do_OpenClipboard ;;;
           do_EmptyClipboard ;;;
           do_SetClipboardText t ;;;
           do_CloseClipboard ;;;
           ret true
         else if _has_tkinter self then
           (root <- tk_root self ;; do_Tk_clipboard_clear root) ;;;
           (root <- tk_root self ;; do_Tk_clipboard_append root t) ;;;
           (root <- tk_root self ;; do_Tk_update root) ;;;
           ret true
         else ret false)
        (fun _ => ret false)
  | _ => ret false
  end.

Definition _convert_to_pil (image_data : PyObj) : M (option Image) :=
  try_except
    (match image_data with
     | PyImage im => ret (Some im)
     | PyStr path => im <- do_Image_open_path path ;; ret (Some im)
     | PyBytes b => im <- do_Image_open_bytes b ;; ret (Some im)
     | PyArray a =>
         fun w =>
           (if version_ge (np_version (cfg w)) (2, 0)%nat then
              im <- do_Image_fromarray a ;; ret (Some im)
            else if DType_eqb (dtype a) uint8 then
              im <- do_Image_fromarray a ;; ret (Some im)
            else
              let normalized := astype_uint8 (np_clip a 0 255) in
              im <- do_Image_fromarray normalized ;; ret (Some im)) w
     | _ => ret None
     end)
    (fun _ => ret None).

Definition _save_image_windows (self : ClipboardManager) (image : Image)
  : M bool :=
  if negb (_has_win32 self) then ret false
  else
    try_except
      (image <- (if negb (Mode_eqb (mode image) ModeRGB)
                 then do_Image_convert_RGB image
                 else ret image) ;;
       bmp_data <- do_Image_save_BMP image ;;
       let dib_data := skipn 14 bmp_data in
       do_OpenClipboard ;;;
       do_EmptyClipboard ;;;
       do_SetClipboardData CF_DIB dib_data ;;;
       do_CloseClipboard ;;;
       ret true)
      (fun _ =>
         try_except do_CloseClipboard (fun _ => ret tt) ;;;
         ret false).

Definition save_image (self : ClipboardManager) (image_data : PyObj)
  : M bool :=
  try_except
    (pil_image <- _convert_to_pil image_data ;;
     match pil_image with
     | None => ret false
     | Some im => _save_image_windows self im
     end)
    (fun _ => ret false).

(** The body of the native branch of [get_text] either returns a value
    ([Some v]) or falls through to the code after it ([None]). *)
Definition get_text (self : ClipboardManager) : M (option string) :=
  try_except
    (if _has_pyperclip self then
       s <- do_pyperclip_paste ;; ret (Some s)
     else
       returned <-
         (if _has_win32 self then
            do_OpenClipboard ;;;
            try_finally
              (avail <- do_IsClipboardFormatAvailable CF_UNICODETEXT ;;
               if avail then
                 data <- do_GetClipboardData CF_UNICODETEXT ;;
                 ret (Some (if str_truthy data then Some data else None))
               else ret None)
              do_CloseClipboard
          else ret None) ;;
       match returned with
       | Some v => ret v
       | None =>
           if _has_tkinter self then
             try_except
               (root <- tk_root self ;;
                s <- do_Tk_clipboard_get root ;;
                ret (Some s))
               (fun _ => ret None)
           else ret None
       end)
    (fun _ => ret None).

Definition clear (self : ClipboardManager) : M bool :=
  try_except
    (if _has_win32 self then
       do_OpenClipboard ;;;
       do_EmptyClipboard ;;;
       do_CloseClipboard ;;;
       ret true
     else save_text self (PyStr EmptyString))
    (fun _ => ret false).

Definition close (self : ClipboardManager) : M unit :=
  match _tk_root self with
  | Some root => try_except (do_Tk_destroy root) (fun _ => ret tt)
  | None => ret tt
  end.

(** ** The module-level singleton *)

(** Allocation of a fresh object: its identity is its index in the
    heap. *)
Definition alloc (m : ClipboardManager) : M nat :=
  fun w => (Ok (List.length (heap w)), set_heap (heap w ++ [m]) w).

Definition deref (id : nat) : M ClipboardManager :=
  fun w =>
    match nth_error (heap w) id with
    | Some m => (Ok m, w)
    | None => (Raise AttributeError, w)
    end.

Definition get_clipboard : M nat :=
  fun w =>
    match _clipboard_instance w with
    | None =>
        (m <- __init__ ;;
         id <- alloc m ;;
         (fun w1 => (Ok id, set_instance (Some id) w1))) w
    | Some id => (Ok id, w)
    end.

Definition copy_text (text : PyObj) : M bool :=
  id <- get_clipboard ;; self <- deref id ;; save_text self text.

Definition copy_image (image_data : PyObj) : M bool :=
  id <- get_clipboard ;; self <- deref id ;; save_image self image_data.

Definition paste_text : M (option string) :=
  id <- get_clipboard ;; self <- deref id ;; get_text self.

Definition clear_clipboard : M bool :=
  id <- get_clipboard ;; self <- deref id ;; clear self.

(** ** Context manager and finaliser *)

Definition __enter__ (self : ClipboardManager) : M ClipboardManager :=
  ret self.

(** [__exit__] closes the manager and returns [None], whatever the
    exception triple it is given ([None] when the block ended
    normally). *)
Definition __exit__ (self : ClipboardManager) (exc : option Exn) : M unit :=
  close self.

Definition __del__ (self : ClipboardManager) : M unit :=
  close self.

(** [with self as cm: body cm].  The value [__exit__] returns is falsy,
    so an exception of the block is raised again after it. *)
Definition with_manager {A} (self : ClipboardManager)
           (body : ClipboardManager -> M A) : M A :=
  cm <- __enter__ self ;;
  fun w =>
    match body cm w with
    | (Ok a, w1) => (__exit__ self None ;;; ret a) w1
    | (Raise e, w1) => (__exit__ self (Some e) ;;; raise e) w1
    end.

(** ** Reading the call log *)

(** The text backend a manager serves [save_text] and [get_text] with:
    the first available one in the order pyperclip, win32, tkinter. *)
Definition text_backend_available (self : ClipboardManager) (b : Library)
  : bool :=
  match b with
  | FastTextLib => _has_pyperclip self
  | NativeApi => _has_win32 self
  | GuiToolkit => _has_tkinter self
  | ImageLib => false
  end.

Definition text_priority : list Library :=
  [FastTextLib; NativeApi; GuiToolkit].

Definition select_text_backend (self : ClipboardManager) : option Library :=
  find (text_backend_available self) text_priority.


Definition succeeded (e : Event) : Prop := ev_ok e = true.

(** A call to Pillow that raised. *)
Definition pillow_failed (e : Event) : Prop :=
  library_of (ev_call e) = ImageLib /\ ev_ok e = false.

Definition served_by (b : option Library) (e : Event) : Prop :=
  Some (library_of (ev_call e)) = b.

Definition failed (e : Event) : Prop := ev_ok e = false.

(** The successful window releases recorded in a log. *)
Definition is_release (e : Event) : bool :=
  match ev_call e with
  | Tk_destroy _ => ev_ok e
  | _ => false
  end.

Definition releases (l : list Event) : nat :=
  List.length (filter is_release l).

(** The payloads handed to [SetClipboardData]. *)
Fixpoint payloads_written (l : list Event) : list (ClipFormat * list byte) :=
  match l with
  | [] => []
  | e :: l' =>
      match ev_call e with
      | SetClipboardData fmt p => (fmt, p) :: payloads_written l'
      | _ => payloads_written l'
      end
  end.

(** The arrays handed to [Image.fromarray]. *)
Fixpoint arrays_imported (l : list Event) : list ndarray :=
  match l with
  | [] => []
  | e :: l' =>
      match ev_call e with
      | Image_fromarray a => a :: arrays_imported l'
      | _ => arrays_imported l'
      end
  end.

(** Two worlds that differ at most in the call log and in the fault
    plan still to be consumed. *)
Definition same_state (w1 w2 : World) : Prop :=
  cfg w1 = cfg w2 /\ clip w1 = clip w2 /\ clip_open w1 = clip_open w2 /\
  tk_live w1 = tk_live w2 /\ tk_next w1 = tk_next w2 /\
  heap w1 = heap w2 /\ _clipboard_instance w1 = _clipboard_instance w2.

(** [w'] is [w] after calls to Pillow only. *)
Definition pillow_only (w w' : World) : Prop :=
  same_state w w' /\
  exists delta,
    log w' = log w ++ delta /\ Forall (served_by (Some ImageLib)) delta.

(** ** Statements of the specification, in its own words *)

(** "Clamp each sample to the inclusive range [0, 255], then truncate
    toward zero to an 8-bit unsigned integer." *)
Definition clamp_then_truncate (x : Q) : Z :=
  match (x ?= 0)%Q with
  | Lt => 0%Z
  | _ => match (x ?= 255)%Q with
         | Gt => 255%Z
         | _ => Z.quot (Qnum x) (Zpos (Qden x))
         end
  end.

Definition normalized_buffer (a : ndarray) : ndarray :=
  mkArray uint8 (shape a)
          (map (fun x => inject_Z (clamp_then_truncate x)) (samples a)).

(** The property of the specification: the array Pillow receives from
    [_convert_to_pil] is the input with every sample clamped to
    [0, 255] and then truncated. *)
Definition imports_normalized (a : ndarray) (w : World) : Prop :=
  exists delta,
    log (snd (_convert_to_pil (PyArray a) w)) = log w ++ delta /\
    arrays_imported delta = [normalized_buffer a].

(** The array Pillow receives from [_convert_to_pil] is the input
    itself. *)
Definition imports_unchanged (a : ndarray) (w : World) : Prop :=
  exists delta,
    log (snd (_convert_to_pil (PyArray a) w)) = log w ++ delta /\
    arrays_imported delta = [a].

(** The canonical image of the data model: RGB, positive size, three
    bytes per pixel. *)
Definition is_canonical (im : Image) : bool :=
  Mode_eqb (mode im) ModeRGB
  && (0 <? width im)%nat && (0 <? height im)%nat
  && (List.length (pixels im) =? width im * height im * 3)%nat.

(** The GUI backend can serve a call only while its window lives. *)
Definition text_backend_ready (self : ClipboardManager) (w : World) : bool :=
  match select_text_backend self with
  | Some GuiToolkit =>
      match _tk_root self with
      | Some root => alive root w
      | None => false
      end
  | Some _ => true
  | None => false
  end.

(** ** Clients used in the statements *)

(** A caller that saves several texts, one after the other, through the
    same manager. *)
Fixpoint save_texts (self : ClipboardManager) (ts : list string)
  : M (list bool) :=
  match ts with
  | [] => ret []
  | t :: ts' =>
      b <- save_text self (PyStr t) ;;
      bs <- save_texts self ts' ;;
      ret (b :: bs)
  end.

(** A caller of the module-level helpers. *)
Inductive Request :=
| rq_get_clipboard
| rq_copy_text (text : PyObj)
| rq_copy_image (image_data : PyObj)
| rq_paste_text
| rq_clear_clipboard.

Definition serve (rq : Request) : M unit :=
  match rq with
  | rq_get_clipboard => get_clipboard ;;; ret tt
  | rq_copy_text text => copy_text text ;;; ret tt
  | rq_copy_image image_data => copy_image image_data ;;; ret tt
  | rq_paste_text => paste_text ;;; ret tt
  | rq_clear_clipboard => clear_clipboard ;;; ret tt
  end.

Fixpoint serve_all (rqs : list Request) : M unit :=
  match rqs with
  | [] => ret tt
  | rq :: rqs' => serve rq ;;; serve_all rqs'
  end.

(** [id] is the singleton and denotes the manager [m]. *)
Definition singleton_is (id : nat) (m : ClipboardManager) (w : World) : Prop :=
  _clipboard_instance w = Some id /\ nth_error (heap w) id = Some m.

(** A computation that allocates no manager and leaves the module
    global alone.  *)
Definition keeps_objects {A} (m : M A) : Prop :=
  forall w, heap (snd (m w)) = heap w /\
            _clipboard_instance (snd (m w)) = _clipboard_instance w.

(** ** Sample machines, managers and inputs *)

(** A machine with numpy 2.3 and the three backends installed, on which
    Pillow imports 8-bit three-channel arrays only. *)
Definition rgb_array_image (a : ndarray) : option Image :=
  if DType_eqb (dtype a) uint8 then
    match shape a with
    | [h; w; 3%nat] =>
        Some (mkImage ModeRGB w h
                (map (fun q => byte_of_N (Z.to_N (Qnum q))) (samples a)))
    | _ => None
    end
  else None.

Definition machine (np : nat * nat) : Config :=
  mkConfig np (fun _ => true) (fun _ => None) (fun _ => None)
           rgb_array_image (fun _ => None).

(** A fresh process: empty unlocked clipboard, no window, no manager. *)
Definition fresh_world (np : nat * nat) (plan : list bool) : World :=
  mkWorld (machine np) ClipEmpty false [] 0 plan [] [] None.

(** A process whose manager [gui_only] has its hidden window, handle 0. *)
Definition gui_world (plan : list bool) : World :=
  mkWorld (machine (2, 3)%nat) ClipEmpty false [0%nat] 1 plan [] [] None.

Definition native_only : ClipboardManager := mkManager true false false None.
Definition fast_text : ClipboardManager := mkManager true true false None.
Definition gui_only : ClipboardManager := mkManager false false true (Some 0%nat).
Definition no_backend : ClipboardManager := mkManager false false false None.

Definition float_probe : ndarray :=
  mkArray float64 [1; 1; 3]%nat [300.7; -5.2; 127.9]%Q.

Definition image_2x2 : Image :=
  mkImage ModeRGB 2 2
          [x01; x02; x03; x04; x05; x06; x07; x08; x09; x0a; x0b; x0c].

(** A one-pixel greyscale image: it has to be converted to RGB. *)
Definition image_gray : Image := mkImage ModeL 1 1 [x80].

Definition image_100x100 : Image :=
  mkImage ModeRGB 100 100 (repeat x7f (100 * 100 * 3)).

(** * Proofs *)

(** ** Symbolic execution of a method on an arbitrary world *)

Create HintDb py discriminated.
#[local] Hint Unfold ret raise bind try_except try_except_ImportError
  try_finally host next_fault when_open when_alive
  do_pyperclip_copy do_pyperclip_paste do_OpenClipboard do_EmptyClipboard
  do_SetClipboardText do_SetClipboardData do_IsClipboardFormatAvailable
  do_GetClipboardData do_CloseClipboard do_Tk_create do_Tk_withdraw
  do_Tk_clipboard_clear do_Tk_clipboard_append do_Tk_update
  do_Tk_clipboard_get do_Tk_destroy do_Image_open_path do_Image_open_bytes
  do_Image_fromarray do_Image_convert_RGB do_Image_save_BMP
  set_clip set_clip_open set_tk set_faults add_log set_heap set_instance
  tk_root import alloc deref : py.

(** The BMP writer, the version test and [bmp[14:]] are never executed
    symbolically. *)
#[local] Arguments bmp_encode : simpl never.
#[local] Arguments version_ge : simpl never.
#[local] Arguments skipn : simpl never.

Ltac break_world w :=
  let cf := fresh "cf" in let c := fresh "c" in let op := fresh "op" in
  let live := fresh "live" in let nx := fresh "nx" in
  let fs := fresh "fs" in let lg := fresh "lg" in
  let hp := fresh "hp" in let inst := fresh "inst" in
  destruct w as [cf c op live nx fs lg hp inst].

Ltac break_manager self :=
  let hw := fresh "hw" in let hp := fresh "hpy" in
  let ht := fresh "htk" in let root := fresh "root" in
  destruct self as [hw hp ht root].

(** One step: split on the value that the innermost stuck [match] is
    waiting for (the next entry of the fault plan, a flag, what the
    machine answers). *)
Ltac split_on x :=
  lazymatch x with
  | context [match ?y with _ => _ end] => split_on y
  | context [option_map _ ?y] => split_on y
  | context [negb ?y] => split_on y
  | _ => first [ is_var x; destruct x | destruct x eqn:? ]
  end.

Ltac py_step :=
  match goal with
  | |- context [match ?x with _ => _ end] => split_on x
  | |- context [option_map _ ?x] => split_on x
  end; cbn.

Ltac py_run := autounfold with py; cbn; repeat py_step.

(** [l ++ d] extends [l] by [d], whatever the bracketing. *)
Ltac log_delta :=
  rewrite <- ?app_assoc; cbn [app];
  match goal with
  | |- exists d, ?l ++ ?d' = ?l ++ d /\ _ => exists d'; split; [reflexivity|]
  | |- exists d, ?l = ?l ++ d /\ _ =>
      exists []; split; [symmetry; apply app_nil_r|]
  end.

(** ** The image pipeline *)

(** [_convert_to_pil] never raises and talks to Pillow only. *)
Lemma _convert_to_pil_calls_pillow_only :
  forall (v : PyObj) (w : World),
    (exists r, fst (_convert_to_pil v w) = Ok r) /\
    pillow_only w (snd (_convert_to_pil v w)).
Proof.
  intros v w. break_world w.
  destruct v; unfold _convert_to_pil, pillow_only, same_state; py_run;
    (split; [eexists; reflexivity|]);
    (split; [repeat split | log_delta; repeat constructor]).
Qed.

Lemma _save_image_windows_never_raises :
  forall (self : ClipboardManager) (im : Image) (w : World),
    exists b, fst (_save_image_windows self im w) = Ok b.
Proof.
  intros self im w. break_manager self. break_world w.
  unfold _save_image_windows. py_run; eexists; reflexivity.
Qed.

Lemma _save_image_windows_without_win32 :
  forall (self : ClipboardManager) (im : Image) (w : World),
    _has_win32 self = false ->
    _save_image_windows self im w = (Ok false, w).
Proof.
  intros self im w H. unfold _save_image_windows. rewrite H. reflexivity.
Qed.

(** The outer handler of [save_image] has nothing to catch. *)
Lemma save_image_cases :
  forall (self : ClipboardManager) (v : PyObj) (w : World),
    save_image self v w
    = match _convert_to_pil v w with
      | (Ok (Some im), w') => _save_image_windows self im w'
      | (_, w') => (Ok false, w')
      end.
Proof.
  intros self v w. unfold save_image, try_except, bind.
  destruct (_convert_to_pil v w) as [[[im|]|e] w']; try reflexivity.
  destruct (_save_image_windows_never_raises self im w') as [b Hb].
  destruct (_save_image_windows self im w') as [r w'']. cbn in Hb.
  subst r. reflexivity.
Qed.

(** When [_convert_to_pil] yields no image, or when win32 was not
    acquired, [save_image] returns false, the only host calls it has
    made are Pillow's, and the clipboard and its lock are as they
    were. *)
Lemma save_image_quiet_failure :
  forall (self : ClipboardManager) (v : PyObj) (w : World),
    fst (_convert_to_pil v w) = Ok None \/ _has_win32 self = false ->
    fst (save_image self v w) = Ok false /\
    (exists delta,
        log (snd (save_image self v w)) = log w ++ delta /\
        Forall (served_by (Some ImageLib)) delta) /\
    clip (snd (save_image self v w)) = clip w /\
    clip_open (snd (save_image self v w)) = clip_open w.
Proof.
  intros self v w H. rewrite save_image_cases.
  destruct (_convert_to_pil_calls_pillow_only v w)
    as [[r Hr] [Hsame Hlog]].
  destruct Hsame as (_ & Hclip & Hopen & _).
  destruct (_convert_to_pil v w) as [r0 w']. cbn in Hr, Hclip, Hopen, Hlog, H.
  subst r0.
  assert (Hquiet :
            fst (Ok false : Res bool, w') = Ok false /\
            (exists delta,
                log (snd (Ok false : Res bool, w')) = log w ++ delta /\
                Forall (served_by (Some ImageLib)) delta) /\
            clip (snd (Ok false : Res bool, w')) = clip w /\
            clip_open (snd (Ok false : Res bool, w')) = clip_open w).
  { cbn. repeat split; auto. }
  destruct H as [H|H].
  - injection H as ->. exact Hquiet.
  - destruct r as [im|]; [|exact Hquiet].
    rewrite (_save_image_windows_without_win32 self im w' H). exact Hquiet.
Qed.

(** An image comes out of [_convert_to_pil] only if every Pillow call
    it made succeeded. *)
Lemma _convert_to_pil_image_means_success :
  forall (v : PyObj) (im : Image) (w : World),
    fst (_convert_to_pil v w) = Ok (Some im) ->
    clip (snd (_convert_to_pil v w)) = clip w /\
    exists d0,
      log (snd (_convert_to_pil v w)) = log w ++ d0 /\
      Forall (served_by (Some ImageLib)) d0 /\
      Forall succeeded d0.
Proof.
  intros v im w. break_world w.
  destruct v; unfold _convert_to_pil; py_run;
    intros H; try discriminate H;
    (split; [reflexivity|]); log_delta; split; repeat constructor.
Qed.

Lemma succeeded_calls_did_not_fail :
  forall l : list Event,
    Forall succeeded l -> ~ Exists pillow_failed l.
Proof.
  intros l H. induction H as [|e l He _ IH]; intros Hex.
  - inversion Hex.
  - inversion Hex as [? ? [_ Hf] | ? ? Hrest]; subst.
    + unfold succeeded in He. congruence.
    + exact (IH Hrest).
Qed.

Ltac no_pillow_failure H :=
  repeat match type of H with
         | Exists _ [] => inversion H
         | Exists _ (_ :: _) =>
             let H1 := fresh in
             inversion H as [? ? H1 | ? ? H1]; clear H; subst;
             [ destruct H1 as [H1 H]; first [discriminate H1 | discriminate H]
             | rename H1 into H ]
         end.

Ltac before_close :=
  match goal with
  | |- exists d ok, [?a; _] = d ++ [_] /\ _ => exists [a]
  | |- exists d ok, [?a; ?b; _] = d ++ [_] /\ _ => exists [a; b]
  end; eexists; split; [reflexivity | repeat constructor].

(** When the conversion to RGB or the BMP writer raises, the handler's
    [CloseClipboard] is the only clipboard call. *)
Lemma _save_image_windows_pillow_failure :
  forall (self : ClipboardManager) (im : Image) (w : World),
    _has_win32 self = true ->
    exists d1,
      log (snd (_save_image_windows self im w)) = log w ++ d1 /\
      (Exists pillow_failed d1 ->
       fst (_save_image_windows self im w) = Ok false /\
       clip (snd (_save_image_windows self im w)) = clip w /\
       exists d ok,
         d1 = d ++ [mkEvent CloseClipboard ok] /\
         Forall (served_by (Some ImageLib)) d).
Proof.
  intros self im w Hw. break_manager self. cbn in Hw. subst. break_world w.
  unfold _save_image_windows. py_run; log_delta; intros H;
    first [ solve [ split; [reflexivity|]; split; [reflexivity|]; before_close ]
          | solve [ exfalso; no_pillow_failure H ] ].
Qed.

(** *** C6 - [save_image] without a usable image or backend *)

(** C6, as stated, fails when the normalisation fails inside
    [_save_image_windows]: a greyscale image that Pillow cannot convert
    to RGB makes the handler call [CloseClipboard]. *)
Lemma conversion_failure_calls_CloseClipboard :
  fst (_convert_to_pil (PyImage image_gray) (fresh_world (2, 3)%nat []))
  = Ok (Some image_gray) /\
  fst (save_image native_only (PyImage image_gray)
         (fresh_world (2, 3)%nat [])) = Ok false /\
  log (snd (save_image native_only (PyImage image_gray)
              (fresh_world (2, 3)%nat [])))
  = [mkEvent (Image_convert_RGB image_gray) false;
     mkEvent CloseClipboard false] /\
  ~ Forall (served_by (Some ImageLib))
      (log (snd (save_image native_only (PyImage image_gray)
                   (fresh_world (2, 3)%nat [])))).
Proof.
  split; [reflexivity|]. split; [reflexivity|]. split; [reflexivity|].
  intros H. cbn in H.
  inversion H as [|? ? _ H1]; subst.
  inversion H1 as [|? ? H2 _]; subst.
  discriminate H2.
Qed.

(** C6, amended.  [save_image] never raises.  When [_convert_to_pil]
    yields no image, or when win32 was not acquired, it returns false,
    the only host calls it has made are Pillow's, and the clipboard and
    its lock are as they were.  When the image is there and win32 is
    acquired but Pillow's conversion to RGB or its BMP writer raises,
    it returns false, the clipboard content is as it was, and the one
    clipboard call made is the handler's [CloseClipboard], after
    Pillow's calls. *)
Theorem save_image_failure_paths :
  forall (self : ClipboardManager) (v : PyObj) (w : World),
    (exists b, fst (save_image self v w) = Ok b) /\
    (fst (_convert_to_pil v w) = Ok None \/ _has_win32 self = false ->
     fst (save_image self v w) = Ok false /\
     (exists delta,
         log (snd (save_image self v w)) = log w ++ delta /\
         Forall (served_by (Some ImageLib)) delta) /\
     clip (snd (save_image self v w)) = clip w /\
     clip_open (snd (save_image self v w)) = clip_open w) /\
    (exists delta,
        log (snd (save_image self v w)) = log w ++ delta /\
        ((exists im, fst (_convert_to_pil v w) = Ok (Some im)) ->
         _has_win32 self = true ->
         Exists pillow_failed delta ->
         fst (save_image self v w) = Ok false /\
         clip (snd (save_image self v w)) = clip w /\
         exists d ok,
           delta = d ++ [mkEvent CloseClipboard ok] /\
           Forall (served_by (Some ImageLib)) d)).
Proof.
  intros self v w. split; [|split].
  - rewrite save_image_cases.
    destruct (_convert_to_pil v w) as [[[im|]|e] w'];
      try (eexists; reflexivity).
    apply _save_image_windows_never_raises.
  - apply save_image_quiet_failure.
  - destruct (_has_win32 self) eqn:Hw.
    + rewrite save_image_cases.
      pose proof (fun im => @_convert_to_pil_image_means_success v im w) as Himg.
      destruct (_convert_to_pil_calls_pillow_only v w)
        as [_ [_ (d & Hd & _)]].
      destruct (_convert_to_pil v w) as [[[im|]|e] w']; cbn in Hd.
      * destruct (Himg im eq_refl) as (Hclip & d0 & Hlog0 & Hall0 & Hok0).
        cbn in Hclip, Hlog0.
        destruct (_save_image_windows_pillow_failure self im w' Hw)
          as (d1 & Hlog1 & Hfail).
        exists (d0 ++ d1). split.
        { rewrite Hlog1, Hlog0, app_assoc. reflexivity. }
        intros _ _ Hex. apply Exists_app in Hex. destruct Hex as [Hex|Hex].
        { exfalso. exact (succeeded_calls_did_not_fail Hok0 Hex). }
        destruct (Hfail Hex) as (Hr & Hc & d' & ok & Hd1 & Hall').
        split; [exact Hr|]. split; [congruence|].
        exists (d0 ++ d'), ok. split.
        { rewrite Hd1, app_assoc. reflexivity. }
        apply Forall_app. split; assumption.
      * exists d. split; [exact Hd|].
        intros [im Him]. discriminate Him.
      * exists d. split; [exact Hd|].
        intros [im Him]. discriminate Him.
    + destruct (save_image_quiet_failure self v w (or_intror Hw))
        as (_ & (delta & Hlog & _) & _).
      exists delta. split; [exact Hlog|].
      intros _ H. discriminate H.
Qed.

Lemma save_image_failure_paths_witness :
  fst (save_image native_only PyNone (fresh_world (2, 3)%nat [])) = Ok false /\
  fst (save_image gui_only (PyImage image_2x2) (fresh_world (2, 3)%nat []))
  = Ok false /\
  clip (snd (save_image native_only (PyImage image_gray)
               (snd (save_text native_only (PyStr "owo")
                       (fresh_world (2, 3)%nat [])))))
  = ClipText "owo".
Proof.
  split; [|split].
  - apply (proj1 (proj2 (save_image_failure_paths
                           native_only PyNone (fresh_world (2, 3)%nat [])))).
    left. reflexivity.
  - apply (proj1 (proj2 (save_image_failure_paths
                           gui_only (PyImage image_2x2)
                           (fresh_world (2, 3)%nat [])))).
    right. reflexivity.
  - destruct (proj2 (proj2 (save_image_failure_paths
                              native_only (PyImage image_gray)
                              (snd (save_text native_only (PyStr "owo")
                                      (fresh_world (2, 3)%nat []))))))
      as (delta & Hlog & Hfail).
    assert (Hd : delta = [mkEvent (Image_convert_RGB image_gray) false;
                          mkEvent CloseClipboard false]).
    { apply (app_inv_head _ _ _
               (eq_trans (eq_sym Hlog) eq_refl)). }
    destruct (Hfail (ex_intro _ image_gray eq_refl) eq_refl) as (_ & Hc & _).
    + rewrite Hd. apply Exists_cons_hd. split; reflexivity.
    + exact Hc.
Defined.

(** *** C2 - raw pixel buffers *)

Lemma to_uint8_clip_sample :
  forall x : Q,
    to_uint8 (clip_sample 0 255 x) = inject_Z (clamp_then_truncate x).
Proof.
  intros [n d].
  unfold to_uint8, clip_sample, clamp_then_truncate, Qtruncate,
    Qmax, Qmin, GenericMinMax.gmax, GenericMinMax.gmin, Qcompare.
  cbn [Qnum Qden].
  repeat match goal with
         | |- context [(?a ?= ?b)%Z] => destruct (Z.compare_spec a b)
         end;
    cbn [Qnum Qden] in *; try reflexivity; try lia;
    f_equal; apply Z.mod_small;
    rewrite Z.quot_div_nonneg by lia;
    (split; [ apply Z.div_pos; lia | apply Z.div_lt_upper_bound; lia ]).
Qed.

Lemma astype_uint8_np_clip :
  forall a : ndarray, astype_uint8 (np_clip a 0 255) = normalized_buffer a.
Proof.
  intros a. unfold astype_uint8, np_clip, normalized_buffer. cbn.
  f_equal. rewrite map_map. apply map_ext. apply to_uint8_clip_sample.
Qed.

(** C2, as stated, fails under numpy 2.x: the float buffer reaches
    Pillow with its samples 300.7, -5.2 and 127.9 untouched. *)
Lemma numpy2_imports_raw_samples :
  DType_eqb (dtype float_probe) uint8 = false /\
  ~ imports_normalized float_probe (fresh_world (2, 3)%nat []).
Proof.
  split; [reflexivity|].
  intros (delta & Hlog & Harr).
  cbn in Hlog. subst delta. cbn in Harr. discriminate Harr.
Qed.

(** C2, amended.  Under numpy 1.x a raw pixel buffer whose element type
    is not uint8 reaches Pillow as an 8-bit buffer of the same shape in
    which every sample has been clamped to [0, 255] and then truncated
    toward zero; 300.7 becomes 255, -5.2 becomes 0, 127.9 becomes 127.
    Under numpy 2.0 or newer every buffer reaches Pillow as it was
    given. *)
Theorem raw_buffer_by_numpy_version :
  forall (a : ndarray) (w : World),
    (version_ge (np_version (cfg w)) (2, 0)%nat = false ->
     DType_eqb (dtype a) uint8 = false ->
     imports_normalized a w) /\
    (version_ge (np_version (cfg w)) (2, 0)%nat = true ->
     imports_unchanged a w) /\
    samples (astype_uint8 (np_clip float_probe 0 255)) = [255; 0; 127]%Q.
Proof.
  intros a w. split; [|split; [|reflexivity]].
  - intros Hv Hd. unfold imports_normalized.
    break_world w. cbn in Hv.
    unfold _convert_to_pil. autounfold with py. cbn.
    rewrite Hv, Hd, astype_uint8_np_clip.
    py_run; log_delta; reflexivity.
  - intros Hv. unfold imports_unchanged.
    break_world w. cbn in Hv.
    unfold _convert_to_pil. autounfold with py. cbn.
    rewrite Hv.
    py_run; log_delta; reflexivity.
Qed.

Lemma raw_buffer_by_numpy_version_witness :
  imports_normalized float_probe (fresh_world (1, 26)%nat []) /\
  imports_unchanged float_probe (fresh_world (2, 3)%nat []).
Proof.
  split.
  - apply (@raw_buffer_by_numpy_version
             float_probe (fresh_world (1, 26)%nat [])); reflexivity.
  - apply (@raw_buffer_by_numpy_version
             float_probe (fresh_world (2, 3)%nat [])); reflexivity.
Defined.

(** *** C7 - the payload of [save_image] *)

Lemma length_bgr_le :
  forall (n : nat) (row : list byte),
    List.length row <= n -> List.length (bgr row) = List.length row.
Proof.
  induction n as [n IH] using lt_wf_ind. intros row Hn.
  destruct row as [|r [|g [|b rest]]]; try reflexivity.
  cbn [bgr List.length]. do 3 f_equal.
  apply (IH (List.length rest)); cbn in Hn; lia.
Qed.

Lemma length_bgr :
  forall row : list byte, List.length (bgr row) = List.length row.
Proof.
  intros row. apply (length_bgr_le (n := List.length row)). lia.
Qed.

Lemma rows_bounded :
  forall (n len : nat) (data : list byte),
    List.length (rows n len data) = n /\
    Forall (fun r => List.length r <= len) (rows n len data).
Proof.
  induction n as [|n IH]; intros len data; cbn.
  - split; constructor.
  - destruct (IH len (skipn len data)) as [Hl Hf]. split.
    + rewrite Hl. reflexivity.
    + constructor; [|exact Hf].
      rewrite length_firstn. apply Nat.le_min_l.
Qed.

Lemma stride_covers_row : forall w : nat, 3 * w <= bmp_stride w.
Proof.
  intros w. unfold bmp_stride.
  assert (H : (w * 24 + 7) / 8 = 3 * w)
    by (symmetry; apply Nat.div_unique with 7; lia).
  rewrite H.
  pose proof (Nat.div_mod_eq (3 * w + 3) 4) as E.
  pose proof (Nat.mod_upper_bound (3 * w + 3) 4) as U.
  lia.
Qed.

Lemma length_padded_rows :
  forall (stride : nat) (rs : list (list byte)),
    Forall (fun r => List.length r <= stride) rs ->
    List.length (List.concat (map (fun r => pad_to stride (bgr r)) rs))
    = stride * List.length rs.
Proof.
  intros stride rs H. induction H as [|r rs Hr _ IH]; cbn.
  - lia.
  - rewrite length_app, IH. unfold pad_to.
    rewrite length_app, repeat_length, length_bgr. lia.
Qed.

Lemma length_bmp_raster :
  forall im : Image,
    List.length (bmp_raster im) = bmp_stride (width im) * height im.
Proof.
  intros im. unfold bmp_raster.
  destruct (rows_bounded (height im) (3 * width im) (pixels im)) as [Hl Hf].
  rewrite length_padded_rows.
  - rewrite length_rev, Hl. reflexivity.
  - apply Forall_rev.
    eapply Forall_impl; [|exact Hf].
    intros r Hr. cbn beta in Hr. pose proof (stride_covers_row (width im)). lia.
Qed.

Lemma bmp_encode_layout :
  forall (im : Image) (bmp : list byte),
    bmp_encode im = Some bmp ->
    bmp = bmp_file_header im ++ skipn 14 bmp /\
    skipn 14 bmp = bmp_info_header im ++ bmp_raster im /\
    List.length (skipn 14 bmp) = 40 + bmp_stride (width im) * height im.
Proof.
  intros im bmp H. unfold bmp_encode in H.
  destruct (Mode_eqb (mode im) ModeRGB); [|discriminate H].
  destruct ((width im =? 0)%nat || (height im =? 0)%nat); [discriminate H|].
  destruct (4294967295 <? 14 + 40 + bmp_image_size im)%N; [discriminate H|].
  pose proof (f_equal (fun o => match o with Some b => b | None => bmp end) H)
    as Hb.
  cbv beta iota in Hb. subst bmp. clear H.
  assert (E : skipn 14 (bmp_file_header im ++ bmp_info_header im ++ bmp_raster im)
              = bmp_info_header im ++ bmp_raster im) by reflexivity.
  rewrite E. repeat split.
  rewrite length_app, length_bmp_raster. reflexivity.
Qed.

(** C7.  For a canonical RGB image whose BMP encoding is [bmp], the
    encoding is its 14-byte file header followed by the payload
    [bmp[14:]]; [save_image] never hands another payload to
    [SetClipboardData], and hands over exactly this one, in the DIB
    format, when no host call fails, leaving it on the clipboard.  The
    payload is 40 header bytes and the padded rows long; for a
    100 x 100 image that is the BMP size 14 + 40 + 100*100*3 minus
    14. *)
Theorem save_image_writes_headerless_bitmap :
  forall (self : ClipboardManager) (im : Image) (bmp : list byte) (w : World),
    _has_win32 self = true ->
    is_canonical im = true ->
    bmp_encode im = Some bmp ->
    bmp = bmp_file_header im ++ skipn 14 bmp /\
    List.length (bmp_file_header im) = 14 /\
    (exists delta,
        log (snd (save_image self (PyImage im) w)) = log w ++ delta /\
        (payloads_written delta = [] \/
         payloads_written delta = [(CF_DIB, skipn 14 bmp)]) /\
        (faults w = [] ->
         fst (save_image self (PyImage im) w) = Ok true /\
         payloads_written delta = [(CF_DIB, skipn 14 bmp)] /\
         clip (snd (save_image self (PyImage im) w))
         = ClipDib (skipn 14 bmp))) /\
    Z.of_nat (List.length (skipn 14 bmp))
    = (40 + Z.of_nat (bmp_stride (width im)) * Z.of_nat (height im))%Z /\
    (width im = 100 -> height im = 100 ->
     Z.of_nat (List.length (skipn 14 bmp)) = (14 + 40 + 100 * 100 * 3 - 14)%Z).
Proof.
  intros self im bmp w Hw Hc He.
  destruct (bmp_encode_layout im He) as (Hsplit & _ & Hlen).
  split; [exact Hsplit|]. split; [reflexivity|].
  split.
  - unfold is_canonical in Hc.
    destruct (Mode_eqb (mode im) ModeRGB) eqn:Hm; [|discriminate Hc].
    rewrite save_image_cases.
    change (_convert_to_pil (PyImage im) w) with (Ok (Some im), w).
    cbv iota beta.
    break_manager self. cbn in Hw. subst. break_world w.
    unfold _save_image_windows.
    autounfold with py. cbn. rewrite Hm. cbn.
    rewrite He. cbn. repeat py_step; log_delta;
      (split; [cbn; auto|]); intros Hf; try discriminate Hf.
    cbn. repeat split.
  - split.
    + rewrite Hlen. lia.
    + intros Hwd Hht. rewrite Hlen, Hwd, Hht. reflexivity.
Qed.

Lemma save_image_writes_headerless_bitmap_witness :
  exists bmp,
    bmp_encode image_2x2 = Some bmp /\
    clip (snd (save_image native_only (PyImage image_2x2)
                 (fresh_world (2, 3)%nat [])))
    = ClipDib (skipn 14 bmp).
Proof.
  eexists. split; [reflexivity|].
  refine (let H := @save_image_writes_headerless_bitmap
                     native_only image_2x2 _ (fresh_world (2, 3)%nat [])
                     eq_refl eq_refl eq_refl in _).
  destruct H as (_ & _ & (delta & _ & _ & Hrun) & _).
  destruct (Hrun eq_refl) as (_ & _ & Hclip). exact Hclip.
Defined.

(** The 100 x 100 sample image: 30054 bytes of BMP, 30040 of payload. *)
Example payload_100x100 :
  option_map (fun bmp => (N.of_nat (List.length bmp),
                          N.of_nat (List.length (skipn 14 bmp))))
             (bmp_encode image_100x100)
  = Some (30054, 30040)%N.
Proof. vm_compute. reflexivity. Qed.
(** ** Text operations *)

(** *** C5 - a non-text argument *)

(** C5.  For every argument that is not a text value, [save_text]
    returns false and issues no host call at all: the world, and with
    it the clipboard content and the call log, is left as it was. *)
Theorem save_text_rejects_non_text :
  forall (self : ClipboardManager) (v : PyObj) (w : World),
    (forall s, v <> PyStr s) ->
    save_text self v w = (Ok false, w).
Proof.
  intros self v w Hv.
  destruct v; try reflexivity.
  exfalso. apply (Hv s). reflexivity.
Qed.

Lemma save_text_rejects_non_text_witness :
  (forall s, PyInt 5 <> PyStr s) /\
  save_text native_only (PyInt 5) (fresh_world (2, 3)%nat [])
  = (Ok false, fresh_world (2, 3)%nat []).
Proof.
  split.
  - intros s H. discriminate H.
  - apply (@save_text_rejects_non_text native_only (PyInt 5)
             (fresh_world (2, 3)%nat [])).
    intros s H. discriminate H.
Defined.

(** *** C4 - one backend per manager *)

Ltac no_failure H :=
  repeat match type of H with
         | Exists _ [] => inversion H
         | Exists _ (_ :: _) =>
             let H1 := fresh in
             inversion H as [? ? H1 | ? ? H1]; clear H; subst;
             [ discriminate H1 | rename H1 into H ]
         end.

Section OneManager.

Variable self : ClipboardManager.

Lemma save_text_single_backend :
  forall (t : string) (w : World),
    exists delta,
      log (snd (save_text self (PyStr t) w)) = log w ++ delta /\
      Forall (served_by (select_text_backend self)) delta /\
      (exists b, fst (save_text self (PyStr t) w) = Ok b) /\
      (Exists failed delta -> fst (save_text self (PyStr t) w) = Ok false) /\
      match select_text_backend self with
      | None => fst (save_text self (PyStr t) w) = Ok false
      | Some GuiToolkit => _tk_root self = None \/ delta <> []
      | Some _ => delta <> []
      end.
Proof.
  intros t w. revert t w.
  destruct self as [[|] [|] [|] [root|]]; intros t w; break_world w;
    unfold save_text; py_run; log_delta;
    (split; [repeat constructor|]);
    (split; [eexists; reflexivity|]);
    (split; [try reflexivity; intros H; no_failure H|]);
    try reflexivity; try discriminate; try (right; discriminate);
    try (left; reflexivity).
Qed.





End OneManager.


(** *** C3 - what [get_text] reports when there is no text *)

(** Without pyperclip the absence of text is reported as [None],
    whichever of the other backends serves the call and whatever fails
    on the way. *)
Lemma get_text_reports_absence_without_pyperclip :
  forall (self : ClipboardManager) (w : World),
    _has_pyperclip self = false ->
    clip_text (clip w) = None ->
    fst (get_text self w) = Ok None.
Proof.
  intros self w Hp Hc.
  break_manager self. break_world w. cbn in Hp, Hc. subst.
  destruct c; try discriminate Hc;
    unfold get_text; py_run; reflexivity.
Qed.

(** Without any text backend nothing is called at all. *)
Lemma get_text_without_backend :
  forall (self : ClipboardManager) (w : World),
    select_text_backend self = None ->
    get_text self w = (Ok None, w).
Proof.
  intros self w. destruct self as [[|] [|] [|] root]; intros H;
    try discriminate H. reflexivity.
Qed.

(** C3.  With pyperclip available, [get_text] hands back what
    [pyperclip.paste()] returns, as it is; on a clipboard that holds no
    text this is the empty string, not the "no text available"
    result. *)
Theorem get_text_via_pyperclip_reports_empty_string :
  forall (self : ClipboardManager) (w : World),
    _has_pyperclip self = true ->
    clip_text (clip w) = None ->
    faults w = [] ->
    get_text self w
    = (match do_pyperclip_paste w with
       | (Ok s, w') => (Ok (Some s), w')
       | (Raise _, w') => (Ok None, w')
       end) /\
    fst (get_text self w) = Ok (Some EmptyString) /\
    log (snd (get_text self w)) = log w ++ [mkEvent pyperclip_paste true].
Proof.
  intros self w Hp Hc Hf.
  break_manager self. break_world w. cbn in Hp, Hc, Hf. subst.
  unfold get_text. autounfold with py. cbn. rewrite Hc. cbn.
  repeat split.
Qed.

Lemma get_text_via_pyperclip_reports_empty_string_witness :
  fst (get_text fast_text (fresh_world (2, 3)%nat [])) = Ok (Some EmptyString).
Proof.
  apply (@get_text_via_pyperclip_reports_empty_string
           fast_text (fresh_world (2, 3)%nat [])); reflexivity.
Defined.

(** *** C9 - writing a text and reading it back *)

(** C9, as stated, fails on the native backend for the empty text:
    [get_text] maps the empty string it reads to [None]. *)
Lemma native_round_trip_loses_empty_text :
  fst (save_text native_only (PyStr EmptyString) (fresh_world (2, 3)%nat [])) = Ok true /\
  fst (get_text native_only
         (snd (save_text native_only (PyStr EmptyString) (fresh_world (2, 3)%nat []))))
  = Ok None /\
  fst (get_text native_only
         (snd (save_text native_only (PyStr EmptyString) (fresh_world (2, 3)%nat []))))
  <> Ok (Some EmptyString).
Proof.
  split; [reflexivity|]. split; [reflexivity|].
  intros H. discriminate H.
Qed.

(** C9, amended.  When the manager's text backend can serve the calls
    and no host call fails, [save_text t] succeeds and the [get_text]
    that follows on the resulting world returns [t] - for every [t] on
    pyperclip and on tkinter, and for every non-empty [t] on win32. *)
Theorem save_text_then_get_text :
  forall (self : ClipboardManager) (t : string) (w : World),
    text_backend_ready self w = true ->
    faults w = [] ->
    t <> EmptyString \/ select_text_backend self <> Some NativeApi ->
    fst (save_text self (PyStr t) w) = Ok true /\
    fst (get_text self (snd (save_text self (PyStr t) w))) = Ok (Some t).
Proof.
  intros self t w Hr Hf Ht. revert Hr Ht.
  break_world w. cbn in Hf. subst.
  destruct self as [[|] [|] [|] [root|]];
    unfold text_backend_ready; cbn; intros Hr Ht; try discriminate Hr;
    unfold save_text, get_text; autounfold with py; cbn;
    repeat (rewrite Hr; cbn);
    try (split; reflexivity);
    (destruct t as [|a t];
     [ destruct Ht as [Ht|Ht]; exfalso; apply Ht; reflexivity
     | split; reflexivity ]).
Qed.

Lemma save_text_then_get_text_witness :
  fst (get_text native_only
         (snd (save_text native_only (PyStr "owo")
                 (fresh_world (2, 3)%nat [])))) = Ok (Some "owo").
Proof.
  apply (@save_text_then_get_text native_only "owo"
           (fresh_world (2, 3)%nat [])).
  - reflexivity.
  - reflexivity.
  - left. intros H. discriminate H.
Defined.


(** ** The clipboard lock *)

(** *** C1 - closing on every exit path *)

(** The image path and the native read path do give the lock back:
    once such a call has returned, the clipboard is still open only if
    the very last host call was a [CloseClipboard] that itself failed. *)
Lemma _save_image_windows_closes_clipboard :
  forall (self : ClipboardManager) (im : Image) (w : World),
    clip_open w = false ->
    clip_open (snd (_save_image_windows self im w)) = true ->
    exists l, log (snd (_save_image_windows self im w))
              = l ++ [mkEvent CloseClipboard false].
Proof.
  intros self im w Hop.
  break_manager self. break_world w. cbn in Hop. subst.
  unfold _save_image_windows. py_run; intros H; try discriminate H;
    eexists; reflexivity.
Qed.

Lemma save_image_closes_clipboard :
  forall (self : ClipboardManager) (v : PyObj) (w : World),
    clip_open w = false ->
    clip_open (snd (save_image self v w)) = true ->
    exists l, log (snd (save_image self v w))
              = l ++ [mkEvent CloseClipboard false].
Proof.
  intros self v w Hop. rewrite save_image_cases.
  destruct (_convert_to_pil_calls_pillow_only v w) as [_ [Hsame _]].
  destruct Hsame as (_ & _ & Hopen & _).
  destruct (_convert_to_pil v w) as [[[im|]|e] w']; cbn in Hopen |- *;
    try (intros H; congruence).
  apply _save_image_windows_closes_clipboard. congruence.
Qed.

Lemma get_text_closes_clipboard :
  forall (self : ClipboardManager) (w : World),
    clip_open w = false ->
    clip_open (snd (get_text self w)) = true ->
    exists l, log (snd (get_text self w))
              = l ++ [mkEvent CloseClipboard false].
Proof.
  intros self w Hop.
  break_manager self. break_world w. cbn in Hop. subst.
  unfold get_text. py_run; intros H; try discriminate H;
    eexists; reflexivity.
Qed.

(** C1.  The text write path and [clear] do not: when
    [SetClipboardText] (for [save_text]) or [EmptyClipboard] (for
    [clear]) raises after [OpenClipboard] has succeeded, the handler
    returns false without a [CloseClipboard], and the call returns with
    the clipboard still open. *)
Theorem native_write_failure_leaves_clipboard_open :
  forall (self : ClipboardManager) (t : string) (w : World) (plan : list bool),
    _has_pyperclip self = false ->
    _has_win32 self = true ->
    faults w = false :: false :: true :: plan ->
    (fst (save_text self (PyStr t) w) = Ok false /\
     clip_open (snd (save_text self (PyStr t) w)) = true /\
     log (snd (save_text self (PyStr t) w))
     = log w ++ [mkEvent OpenClipboard true;
                 mkEvent EmptyClipboard true;
                 mkEvent (SetClipboardText t) false]) /\
    (fst (clear self (set_faults (false :: true :: plan) w)) = Ok false /\
     clip_open (snd (clear self (set_faults (false :: true :: plan) w))) = true /\
     log (snd (clear self (set_faults (false :: true :: plan) w)))
     = log w ++ [mkEvent OpenClipboard true;
                 mkEvent EmptyClipboard false]).
Proof.
  intros self t w plan Hp Hw Hf.
  break_manager self. break_world w. cbn in Hp, Hw, Hf. subst.
  unfold clear, save_text. py_run;
    rewrite <- ?app_assoc; repeat split; reflexivity.
Qed.

Lemma native_write_failure_leaves_clipboard_open_witness :
  clip_open (snd (save_text native_only (PyStr "x")
                    (fresh_world (2, 3)%nat [false; false; true]))) = true.
Proof.
  apply (@native_write_failure_leaves_clipboard_open
           native_only "x" (fresh_world (2, 3)%nat [false; false; true]) []);
    reflexivity.
Defined.

(** ** The hidden window *)

(** *** C8 - [close] twice *)

Lemma destroyed_is_not_alive :
  forall (root : nat) (live : list nat),
    existsb (Nat.eqb root)
            (filter (fun r => negb (Nat.eqb root r)) live) = false.
Proof.
  intros root live. induction live as [|r live IH]; cbn.
  - reflexivity.
  - destruct (Nat.eqb root r) eqn:E; cbn.
    + exact IH.
    + rewrite E. exact IH.
Qed.

(** C8.  Two [close()] in a row both return normally; the window is
    released at most once over the two calls (the calls made are
    tkinter's); once the first call has released it, the second one
    changes nothing in the world beyond the call log - its [destroy]
    is refused by the toolkit and the error is discarded.  A manager
    without a window makes no call at all. *)
Theorem close_twice_releases_at_most_once :
  forall (self : ClipboardManager) (w : World),
    fst (close self w) = Ok tt /\
    fst (close self (snd (close self w))) = Ok tt /\
    exists d1 d2,
      log (snd (close self w)) = log w ++ d1 /\
      log (snd (close self (snd (close self w))))
      = log (snd (close self w)) ++ d2 /\
      Forall (served_by (Some GuiToolkit)) (d1 ++ d2) /\
      releases (d1 ++ d2) <= 1 /\
      (releases d1 = 1 ->
       releases d2 = 0 /\
       same_state (snd (close self w)) (snd (close self (snd (close self w))))) /\
      (_tk_root self = None -> d1 = [] /\ d2 = []).
Proof.
  intros self w. break_manager self. break_world w.
  destruct root as [root|]; unfold close.
  - autounfold with py. cbn.
    destruct fs as [|[|] fs]; cbn;
      (destruct (existsb (Nat.eqb root) live) eqn:Ha; cbn;
       [ rewrite ?destroyed_is_not_alive | rewrite ?Ha ]);
      try (destruct fs as [|[|] fs]; cbn; rewrite ?Ha; cbn;
           rewrite ?destroyed_is_not_alive);
      cbn; (split; [reflexivity|]); (split; [reflexivity|]);
      eexists; eexists;
      (split; [reflexivity|]); (split; [reflexivity|]);
      (split; [repeat constructor|]);
      cbn; (split; [lia|]).
    all: split; [| intros H; discriminate H ].
    all: intros H; try discriminate H.
    all: split; [reflexivity | unfold same_state; cbn; tauto].
  - cbn. split; [reflexivity|]. split; [reflexivity|].
    exists [], []. cbn. rewrite app_nil_r.
    split; [reflexivity|]. split; [reflexivity|].
    split; [constructor|]. split; [lia|].
    split; [intros H; discriminate H | intros _; split; reflexivity].
Qed.


Lemma close_twice_releases_at_most_once_witness :
  tk_live (snd (close gui_only (gui_world []))) = [] /\
  same_state (snd (close gui_only (gui_world [])))
             (snd (close gui_only (snd (close gui_only (gui_world []))))).
Proof.
  split; [reflexivity|].
  destruct (close_twice_releases_at_most_once gui_only (gui_world []))
    as (_ & _ & d1 & d2 & H1 & _ & _ & _ & Hsame & _).
  cbn in H1. subst d1. apply Hsame. reflexivity.
Defined.

(** ** The module-level singleton *)

(** *** C10 - one manager for the helpers *)

Lemma _save_image_windows_keeps_objects :
  forall self im, keeps_objects (_save_image_windows self im).
Proof.
  intros self im w. break_manager self. break_world w.
  unfold _save_image_windows; py_run; split; reflexivity.
Qed.


Lemma save_text_keeps_objects :
  forall self v, keeps_objects (save_text self v).
Proof.
  intros self v w. break_manager self. break_world w.
  destruct v; unfold save_text; py_run; split; reflexivity.
Qed.

Lemma save_image_keeps_objects :
  forall self v, keeps_objects (save_image self v).
Proof.
  intros self v w. rewrite save_image_cases.
  destruct (_convert_to_pil_calls_pillow_only v w) as [_ [Hsame _]].
  destruct Hsame as (_ & _ & _ & _ & _ & Hheap & Hinst).
  destruct (_convert_to_pil v w) as [[[im|]|e] w']; cbn in Hheap, Hinst |- *;
    try (split; congruence).
  destruct (_save_image_windows_keeps_objects self im w') as [Hh Hi].
  split; congruence.
Qed.

Lemma get_text_keeps_objects :
  forall self, keeps_objects (get_text self).
Proof.
  intros self w. break_manager self. break_world w.
  unfold get_text; py_run; split; reflexivity.
Qed.

Lemma clear_keeps_objects :
  forall self, keeps_objects (clear self).
Proof.
  intros self w. break_manager self. break_world w.
  unfold clear, save_text; py_run; split; reflexivity.
Qed.

Lemma get_clipboard_first_call :
  forall w : World,
    _clipboard_instance w = None ->
    exists m,
      fst (__init__ w) = Ok m /\
      fst (get_clipboard w) = Ok (List.length (heap w)) /\
      heap (snd (get_clipboard w)) = heap w ++ [m] /\
      singleton_is (List.length (heap w)) m (snd (get_clipboard w)).
Proof.
  intros w Hi. break_world w. cbn in Hi. subst.
  unfold singleton_is, get_clipboard, __init__. py_run;
    eexists; (split; [reflexivity|]); (split; [reflexivity|]);
    (split; [reflexivity|]); (split; [reflexivity|]);
    rewrite nth_error_app2, Nat.sub_diag by lia; reflexivity.
Qed.

Lemma get_clipboard_later_calls :
  forall (w : World) (id : nat) (m : ClipboardManager),
    singleton_is id m w ->
    get_clipboard w = (Ok id, w) /\
    (forall v, copy_text v w = save_text m v w) /\
    (forall v, copy_image v w = save_image m v w) /\
    paste_text w = get_text m w /\
    clear_clipboard w = clear m w.
Proof.
  intros w id m [Hi Hm].
  assert (Hg : get_clipboard w = (Ok id, w))
    by (unfold get_clipboard; rewrite Hi; reflexivity).
  assert (Hd : deref id w = (Ok m, w))
    by (unfold deref; rewrite Hm; reflexivity).
  split; [exact Hg|].
  unfold copy_text, copy_image, paste_text, clear_clipboard, bind.
  rewrite Hg, Hd. repeat split.
Qed.

Lemma serve_keeps_singleton :
  forall (rq : Request) (w : World) (id : nat) (m : ClipboardManager),
    singleton_is id m w ->
    singleton_is id m (snd (serve rq w)) /\
    heap (snd (serve rq w)) = heap w.
Proof.
  intros rq w id m Hs.
  destruct (get_clipboard_later_calls Hs) as (Hg & Hct & Hci & Hp & Hc).
  assert (K : forall A (op : M A),
             keeps_objects op ->
             singleton_is id m (snd ((op ;;; ret tt) w)) /\
             heap (snd ((op ;;; ret tt) w)) = heap w).
  { intros A op Hk. destruct (Hk w) as [Hh Hi].
    unfold bind, ret. destruct (op w) as [[a|e] w1]; cbn in *;
      unfold singleton_is; rewrite Hh, Hi; split; auto. }
  destruct rq as [|v|v| |]; cbn [serve].
  - unfold bind, ret. rewrite Hg. cbn. split; [exact Hs | reflexivity].
  - replace ((copy_text v ;;; ret tt) w) with ((save_text m v ;;; ret tt) w)
      by (unfold bind; rewrite Hct; reflexivity).
    apply K, save_text_keeps_objects.
  - replace ((copy_image v ;;; ret tt) w) with ((save_image m v ;;; ret tt) w)
      by (unfold bind; rewrite Hci; reflexivity).
    apply K, save_image_keeps_objects.
  - replace ((paste_text ;;; ret tt) w) with ((get_text m ;;; ret tt) w)
      by (unfold bind; rewrite Hp; reflexivity).
    apply K, get_text_keeps_objects.
  - replace ((clear_clipboard ;;; ret tt) w) with ((clear m ;;; ret tt) w)
      by (unfold bind; rewrite Hc; reflexivity).
    apply K, clear_keeps_objects.
Qed.

Lemma serve_all_keeps_singleton :
  forall (rqs : list Request) (w : World) (id : nat) (m : ClipboardManager),
    singleton_is id m w ->
    singleton_is id m (snd (serve_all rqs w)) /\
    heap (snd (serve_all rqs w)) = heap w.
Proof.
  induction rqs as [|rq rqs IH]; intros w id m Hs; cbn [serve_all].
  - split; [exact Hs | reflexivity].
  - destruct (serve_keeps_singleton rq Hs) as [Hs1 Hh1].
    unfold bind. destruct (serve rq w) as [[u|e] w1]; cbn in *.
    + destruct (IH w1 id m Hs1) as [Hs2 Hh2].
      split; [exact Hs2 | congruence].
    + split; assumption.
Qed.



(** * Further properties of the module *)

(** ** Construction *)

(** X1.  [ClipboardManager()] never raises.  The win32 and pyperclip
    flags are exactly what can be imported; the tkinter flag is set
    precisely when a window handle was kept, and that handle is the
    fresh window, alive when the constructor returns.  The constructor
    calls tkinter only and leaves the clipboard and its lock alone. *)
Theorem init_establishes_manager_invariant :
  forall w : World,
    exists m delta,
      fst (__init__ w) = Ok m /\
      _has_win32 m = importable (cfg w) NativeApi /\
      _has_pyperclip m = importable (cfg w) FastTextLib /\
      (_has_tkinter m = true <-> _tk_root m <> None) /\
      (forall root, _tk_root m = Some root ->
                    root = tk_next w /\
                    alive root (snd (__init__ w)) = true /\
                    importable (cfg w) GuiToolkit = true) /\
      log (snd (__init__ w)) = log w ++ delta /\
      Forall (served_by (Some GuiToolkit)) delta /\
      clip (snd (__init__ w)) = clip w /\
      clip_open (snd (__init__ w)) = clip_open w.
Proof.
  intros w. break_world w. unfold __init__, alive.
  autounfold with py. cbn.
  repeat (rewrite ?Nat.eqb_refl; cbn; py_step);
    rewrite ?Nat.eqb_refl; cbn;
    eexists; eexists;
    (split; [reflexivity|]); cbn;
    (split; [reflexivity|]); (split; [reflexivity|]);
    (split; [split; [intros H; try discriminate H; discriminate
                    | intros H; try reflexivity; exfalso; apply H; reflexivity]|]);
    (split; [intros root H; try discriminate H; injection H as <-;
             rewrite ?Nat.eqb_refl; repeat split|]);
    (split; [rewrite <- ?app_assoc; cbn [app];
             first [reflexivity | symmetry; apply app_nil_r]|]);
    (split; [repeat constructor|]); split; reflexivity.
Qed.

(** X2.  When [tk.Tk()] succeeds and the [withdraw()] that follows
    raises, the handler records no window: the manager has
    [_has_tkinter = False] and [_tk_root = None], although the window
    just created is alive; [close()] on that manager calls nothing and
    the window stays. *)
Theorem init_withdraw_failure_leaks_window :
  forall (w : World) (plan : list bool),
    importable (cfg w) GuiToolkit = true ->
    faults w = false :: true :: plan ->
    exists m,
      fst (__init__ w) = Ok m /\
      _has_tkinter m = false /\
      _tk_root m = None /\
      alive (tk_next w) (snd (__init__ w)) = true /\
      close m (snd (__init__ w)) = (Ok tt, snd (__init__ w)).
Proof.
  intros w plan Hi Hf. break_world w. cbn in Hi, Hf. subst.
  unfold __init__, alive. autounfold with py. cbn.
  repeat (rewrite ?Hi, ?Nat.eqb_refl; cbn; py_step);
    rewrite ?Hi, ?Nat.eqb_refl; cbn;
    eexists; (split; [reflexivity|]); cbn;
    rewrite ?Nat.eqb_refl; repeat split.
Qed.

Lemma init_withdraw_failure_leaks_window_witness :
  alive 0 (snd (__init__ (fresh_world (2, 3)%nat [false; true]))) = true /\
  exists m, fst (__init__ (fresh_world (2, 3)%nat [false; true])) = Ok m /\
            _tk_root m = None.
Proof.
  destruct (@init_withdraw_failure_leaks_window
              (fresh_world (2, 3)%nat [false; true]) [] eq_refl eq_refl)
    as (m & Hm & _ & Hroot & Halive & _).
  split; [exact Halive|]. exists m. split; assumption.
Defined.

Lemma init_establishes_manager_invariant_witness :
  exists m,
    fst (__init__ (fresh_world (2, 3)%nat [])) = Ok m /\
    _tk_root m = Some 0 /\
    alive 0 (snd (__init__ (fresh_world (2, 3)%nat []))) = true.
Proof.
  destruct (init_establishes_manager_invariant (fresh_world (2, 3)%nat []))
    as (m & delta & Hm & _ & _ & _ & Hroot & _).
  exists m. split; [exact Hm|].
  assert (E : _tk_root m = Some 0) by (cbn in Hm; injection Hm as <-; reflexivity).
  split; [exact E|]. exact (proj1 (proj2 (Hroot 0 E))).
Defined.

(** ** Text operations, continued *)

(** X3.  Whatever happens, [save_text t] leaves the clipboard with its
    former content, empty, or holding [t] - never anything else; when
    it returns True the clipboard holds exactly [t].  It creates and
    destroys no window. *)
Theorem save_text_clipboard_outcomes :
  forall (self : ClipboardManager) (t : string) (w : World),
    (clip (snd (save_text self (PyStr t) w)) = clip w \/
     clip (snd (save_text self (PyStr t) w)) = ClipEmpty \/
     clip (snd (save_text self (PyStr t) w)) = ClipText t) /\
    (fst (save_text self (PyStr t) w) = Ok true ->
     clip (snd (save_text self (PyStr t) w)) = ClipText t) /\
    tk_live (snd (save_text self (PyStr t) w)) = tk_live w.
Proof.
  intros self t w. break_manager self. break_world w.
  unfold save_text. py_run;
    (split; [auto|]); (split; [intros H; try discriminate H; reflexivity|]);
    reflexivity.
Qed.

Lemma save_text_clipboard_outcomes_witness :
  clip (snd (save_text native_only (PyStr "owo")
               (fresh_world (2, 3)%nat []))) = ClipText "owo".
Proof.
  apply (@save_text_clipboard_outcomes native_only "owo"
           (fresh_world (2, 3)%nat [])).
  reflexivity.
Defined.

(** X4.  On the native path a [CloseClipboard] that raises after the
    text has been set makes [save_text] report False although the
    clipboard does hold the text, and the lock is still held. *)
Theorem save_text_reports_failure_after_writing :
  forall (self : ClipboardManager) (t : string) (w : World) (plan : list bool),
    _has_pyperclip self = false ->
    _has_win32 self = true ->
    faults w = false :: false :: false :: true :: plan ->
    fst (save_text self (PyStr t) w) = Ok false /\
    clip (snd (save_text self (PyStr t) w)) = ClipText t /\
    clip_open (snd (save_text self (PyStr t) w)) = true.
Proof.
  intros self t w plan Hp Hw Hf.
  break_manager self. break_world w. cbn in Hp, Hw, Hf. subst.
  unfold save_text. py_run; repeat split.
Qed.

Lemma save_text_reports_failure_after_writing_witness :
  fst (save_text native_only (PyStr "owo")
         (fresh_world (2, 3)%nat [false; false; false; true])) = Ok false /\
  clip (snd (save_text native_only (PyStr "owo")
               (fresh_world (2, 3)%nat [false; false; false; true])))
  = ClipText "owo".
Proof.
  destruct (@save_text_reports_failure_after_writing native_only "owo"
              (fresh_world (2, 3)%nat [false; false; false; true]) []
              eq_refl eq_refl eq_refl) as (H1 & H2 & _).
  split; assumption.
Defined.

(** X5.  [get_text] only reads: it never raises, never changes the
    clipboard content and never creates or destroys a window; a text it
    returns is the text on the clipboard, or the empty string that
    pyperclip reports. *)
Theorem get_text_only_reads :
  forall (self : ClipboardManager) (w : World),
    (exists r, fst (get_text self w) = Ok r) /\
    clip (snd (get_text self w)) = clip w /\
    tk_live (snd (get_text self w)) = tk_live w /\
    (forall s, fst (get_text self w) = Ok (Some s) ->
               clip_text (clip w) = Some s \/
               (s = EmptyString /\ _has_pyperclip self = true)).
Proof.
  intros self w. break_manager self. break_world w.
  unfold get_text. py_run;
    (split; [eexists; reflexivity|]);
    (split; [reflexivity|]); (split; [reflexivity|]);
    intros txt H; try discriminate H; injection H as <-; auto.
Qed.

Lemma get_text_only_reads_witness :
  clip_text
    (clip (snd (save_text native_only (PyStr "owo")
                  (fresh_world (2, 3)%nat [])))) = Some "owo".
Proof.
  destruct (get_text_only_reads native_only
              (snd (save_text native_only (PyStr "owo")
                      (fresh_world (2, 3)%nat []))))
    as (_ & _ & _ & H).
  destruct (H "owo" eq_refl) as [E|[E _]]; [exact E | discriminate E].
Defined.

(** X6.  On a manager without pyperclip but with win32 and a live
    tkinter window, a clipboard without text makes [get_text] ask both
    backends: the native format query answers no, the clipboard is
    closed, and tkinter's [clipboard_get] is tried (and refused) before
    [None] is returned. *)
Theorem get_text_falls_through_to_tkinter :
  forall (self : ClipboardManager) (root : nat) (w : World),
    _has_pyperclip self = false ->
    _has_win32 self = true ->
    _has_tkinter self = true ->
    _tk_root self = Some root ->
    alive root w = true ->
    clip_text (clip w) = None ->
    faults w = [] ->
    fst (get_text self w) = Ok None /\
    log (snd (get_text self w))
    = log w ++ [mkEvent OpenClipboard true;
                mkEvent (IsClipboardFormatAvailable CF_UNICODETEXT) true;
                mkEvent CloseClipboard true;
                mkEvent (Tk_clipboard_get root) false].
Proof.
  intros self root w Hp Hw Ht Hr Ha Hc Hf.
  break_manager self. break_world w. unfold alive in Ha.
  cbn in Hp, Hw, Ht, Hr, Ha, Hc, Hf. subst.
  destruct c; try discriminate Hc;
    unfold get_text, alive; autounfold with py; cbn; rewrite Ha; cbn;
    rewrite <- !app_assoc; split; reflexivity.
Qed.

Lemma get_text_falls_through_to_tkinter_witness :
  fst (get_text (mkManager true false true (Some 0%nat)) (gui_world []))
  = Ok None.
Proof.
  apply (@get_text_falls_through_to_tkinter
           (mkManager true false true (Some 0%nat)) 0 (gui_world []));
    reflexivity.
Defined.

(** ** [clear] *)

(** X7.  [clear] never raises.  With win32 it calls the native API
    only, even when pyperclip is available, and when it returns True the
    clipboard is empty and closed; without win32 it is [save_text] of
    the empty string. *)
Theorem clear_prefers_native :
  forall (self : ClipboardManager) (w : World),
    (exists b, fst (clear self w) = Ok b) /\
    (_has_win32 self = true ->
     (exists delta,
         log (snd (clear self w)) = log w ++ delta /\
         Forall (served_by (Some NativeApi)) delta) /\
     (fst (clear self w) = Ok true ->
      clip (snd (clear self w)) = ClipEmpty /\
      clip_open (snd (clear self w)) = false)) /\
    (_has_win32 self = false ->
     clear self w = save_text self (PyStr EmptyString) w).
Proof.
  intros self w. destruct (_has_win32 self) eqn:Hw.
  - assert (K : (exists b, fst (clear self w) = Ok b) /\
                (exists delta,
                    log (snd (clear self w)) = log w ++ delta /\
                    Forall (served_by (Some NativeApi)) delta) /\
                (fst (clear self w) = Ok true ->
                 clip (snd (clear self w)) = ClipEmpty /\
                 clip_open (snd (clear self w)) = false)).
    { break_world w. unfold clear. rewrite Hw. py_run;
        (split; [eexists; reflexivity|]);
        (split; [log_delta; repeat constructor
                | intros H; try discriminate H; split; reflexivity]). }
    destruct K as (K1 & K2 & K3).
    split; [exact K1|]. split; [intros _; split; assumption|].
    intros H; discriminate H.
  - assert (E : clear self w = save_text self (PyStr EmptyString) w).
    { unfold clear, try_except. rewrite Hw.
      destruct (save_text_single_backend self EmptyString w)
        as (_ & _ & _ & (b & Hb) & _).
      destruct (save_text self (PyStr EmptyString) w) as [r w'].
      cbn in Hb. subst r. reflexivity. }
    split; [|split].
    + rewrite E.
      destruct (save_text_single_backend self EmptyString w)
        as (_ & _ & _ & Hb & _). exact Hb.
    + intros H; discriminate H.
    + intros _. exact E.
Qed.

Lemma clear_prefers_native_witness :
  clip (snd (clear fast_text
               (snd (save_text fast_text (PyStr "owo")
                       (fresh_world (2, 3)%nat []))))) = ClipEmpty.
Proof.
  destruct (clear_prefers_native fast_text
              (snd (save_text fast_text (PyStr "owo")
                      (fresh_world (2, 3)%nat []))))
    as (_ & H & _).
  destruct (H eq_refl) as (_ & H1). exact (proj1 (H1 eq_refl)).
Defined.

(** With no text on the clipboard and no failing call, [get_text]
    answers [None] or the empty string. *)
Lemma get_text_without_text :
  forall (self : ClipboardManager) (w : World),
    clip_text (clip w) = None ->
    faults w = [] ->
    fst (get_text self w) = Ok None \/
    fst (get_text self w) = Ok (Some EmptyString).
Proof.
  intros self w Hc Hf. break_manager self. break_world w.
  cbn in Hc, Hf. subst.
  destruct c; try discriminate Hc; unfold get_text; py_run; auto.
Qed.

(** X8.  When no host call fails, [clear()] followed by [get_text()]
    never yields a non-empty text, for every combination of backends
    and every former clipboard content: the answer is [None] or the
    empty string. *)
Theorem clear_then_get_text :
  forall (self : ClipboardManager) (w : World),
    faults w = [] ->
    fst (get_text self (snd (clear self w))) = Ok None \/
    fst (get_text self (snd (clear self w))) = Ok (Some EmptyString).
Proof.
  intros self w Hf. break_world w. cbn in Hf. subst.
  destruct self as [[|] [|] [|] [root|]];
    unfold clear, save_text, get_text; py_run; auto; congruence.
Qed.

Lemma clear_then_get_text_witness :
  fst (get_text native_only
         (snd (clear native_only
                 (snd (save_text native_only (PyStr "owo")
                         (fresh_world (2, 3)%nat []))))))
  = Ok None.
Proof.
  destruct (@clear_then_get_text native_only
              (snd (save_text native_only (PyStr "owo")
                      (fresh_world (2, 3)%nat []))) eq_refl) as [H|H].
  - exact H.
  - discriminate H.
Defined.

(** ** The image pipeline, continued *)

Lemma payloads_written_app :
  forall l1 l2 : list Event,
    payloads_written (l1 ++ l2) = payloads_written l1 ++ payloads_written l2.
Proof.
  intros l1 l2. induction l1 as [|e l1 IH]; cbn.
  - reflexivity.
  - destruct (ev_call e); cbn; rewrite IH; reflexivity.
Qed.

Lemma pillow_writes_no_payload :
  forall l : list Event,
    Forall (served_by (Some ImageLib)) l -> payloads_written l = [].
Proof.
  intros l H. induction H as [|e l He _ IH]; cbn.
  - reflexivity.
  - unfold served_by in He. destruct (ev_call e); try discriminate He;
      exact IH.
Qed.

Lemma _save_image_windows_success :
  forall (self : ClipboardManager) (im : Image) (w : World),
    fst (_save_image_windows self im w) = Ok true ->
    _has_win32 self = true /\
    clip_open (snd (_save_image_windows self im w)) = false /\
    exists payload delta,
      clip (snd (_save_image_windows self im w)) = ClipDib payload /\
      log (snd (_save_image_windows self im w)) = log w ++ delta /\
      payloads_written delta = [(CF_DIB, payload)].
Proof.
  intros self im w. destruct self as [[|] hpy htk root]; break_world w;
    unfold _save_image_windows; py_run; intros H; try discriminate H;
    (split; [reflexivity|]); (split; [reflexivity|]);
    rewrite <- ?app_assoc; cbn [app];
    eexists; eexists; (split; [reflexivity|]); split; reflexivity.
Qed.

Lemma save_image_success :
  forall (self : ClipboardManager) (v : PyObj) (w : World),
    fst (save_image self v w) = Ok true ->
    _has_win32 self = true /\
    clip_open (snd (save_image self v w)) = false /\
    exists payload delta,
      clip (snd (save_image self v w)) = ClipDib payload /\
      log (snd (save_image self v w)) = log w ++ delta /\
      payloads_written delta = [(CF_DIB, payload)].
Proof.
  intros self v w. rewrite save_image_cases.
  destruct (_convert_to_pil_calls_pillow_only v w)
    as [_ [_ (d0 & Hlog0 & Hall0)]].
  destruct (_convert_to_pil v w) as [[[im|]|e] w']; cbn in Hlog0 |- *;
    try (intros H; discriminate H).
  intros H.
  destruct (_save_image_windows_success self im w' H)
    as (Hw & Hopen & payload & d1 & Hclip & Hlog1 & Hpay).
  split; [exact Hw|]. split; [exact Hopen|].
  exists payload, (d0 ++ d1). split; [exact Hclip|]. split.
  - rewrite Hlog1, Hlog0, app_assoc. reflexivity.
  - rewrite payloads_written_app, (pillow_writes_no_payload Hall0). exact Hpay.
Qed.

(** X9.  [save_image] never raises, whatever it is given and whatever
    fails.  When it returns True, win32 is available, the clipboard
    holds a DIB payload and is closed again, and that payload is the
    one and only payload the call has written. *)
Theorem save_image_success_means_dib_on_clipboard :
  forall (self : ClipboardManager) (v : PyObj) (w : World),
    (exists b, fst (save_image self v w) = Ok b) /\
    (fst (save_image self v w) = Ok true ->
     _has_win32 self = true /\
     clip_open (snd (save_image self v w)) = false /\
     exists payload delta,
       clip (snd (save_image self v w)) = ClipDib payload /\
       log (snd (save_image self v w)) = log w ++ delta /\
       payloads_written delta = [(CF_DIB, payload)]).
Proof.
  intros self v w. split; [|apply save_image_success].
  rewrite save_image_cases.
  destruct (_convert_to_pil v w) as [[[im|]|e] w'];
    try (eexists; reflexivity).
  apply _save_image_windows_never_raises.
Qed.

Lemma save_image_success_means_dib_on_clipboard_witness :
  clip_open (snd (save_image native_only (PyImage image_2x2)
                    (fresh_world (2, 3)%nat []))) = false.
Proof.
  destruct (save_image_success_means_dib_on_clipboard
              native_only (PyImage image_2x2) (fresh_world (2, 3)%nat []))
    as (_ & H).
  exact (proj1 (proj2 (H eq_refl))).
Defined.

(** X10.  An image replaces the text: after a [save_image] that
    returned True, and with no failing call afterwards, [get_text]
    finds no text - it answers [None], or the empty string through
    pyperclip. *)
Theorem save_image_then_get_text :
  forall (self : ClipboardManager) (v : PyObj) (w : World),
    fst (save_image self v w) = Ok true ->
    faults (snd (save_image self v w)) = [] ->
    fst (get_text self (snd (save_image self v w))) = Ok None \/
    fst (get_text self (snd (save_image self v w))) = Ok (Some EmptyString).
Proof.
  intros self v w H Hf.
  destruct (save_image_success self v w H)
    as (_ & _ & payload & _ & Hclip & _).
  apply get_text_without_text; [|exact Hf].
  rewrite Hclip. reflexivity.
Qed.

Lemma save_image_then_get_text_witness :
  fst (get_text native_only
         (snd (save_image native_only (PyImage image_2x2)
                 (snd (save_text native_only (PyStr "owo")
                         (fresh_world (2, 3)%nat []))))))
  = Ok None.
Proof.
  destruct (@save_image_then_get_text native_only (PyImage image_2x2)
              (snd (save_text native_only (PyStr "owo")
                      (fresh_world (2, 3)%nat [])))
              eq_refl eq_refl) as [H|H].
  - exact H.
  - discriminate H.
Defined.

(** X11.  When Pillow's [save] raises, the handler of
    [_save_image_windows] still calls [CloseClipboard], although the
    clipboard was never opened by this call: [save_image] returns
    False, the clipboard content is untouched, and a clipboard the
    process held open before the call is closed by it. *)
Theorem save_image_encode_failure_closes_clipboard :
  forall (self : ClipboardManager) (im : Image) (w : World) (plan : list bool),
    _has_win32 self = true ->
    Mode_eqb (mode im) ModeRGB = true ->
    faults w = true :: false :: plan ->
    fst (save_image self (PyImage im) w) = Ok false /\
    clip (snd (save_image self (PyImage im) w)) = clip w /\
    clip_open (snd (save_image self (PyImage im) w)) = false /\
    log (snd (save_image self (PyImage im) w))
    = log w ++ [mkEvent (Image_save_BMP im) false;
                mkEvent CloseClipboard (clip_open w)].
Proof.
  intros self im w plan Hw Hm Hf. rewrite save_image_cases.
  change (_convert_to_pil (PyImage im) w) with (Ok (Some im), w).
  cbv iota beta.
  break_manager self. break_world w. cbn in Hw, Hf. subst.
  unfold _save_image_windows. autounfold with py. cbn. rewrite Hm. cbn.
  destruct op; cbn; rewrite <- !app_assoc; repeat split.
Qed.

Lemma save_image_encode_failure_closes_clipboard_witness :
  fst (save_image native_only (PyImage image_2x2)
         (fresh_world (2, 3)%nat [true; false])) = Ok false.
Proof.
  apply (@save_image_encode_failure_closes_clipboard
           native_only image_2x2 (fresh_world (2, 3)%nat [true; false]) []);
    reflexivity.
Defined.

(** X12.  An array whose element type is already uint8 reaches
    [Image.fromarray] untouched under every numpy version, and
    [_convert_to_pil] answers with Pillow's image, or with [None] when
    Pillow raises. *)
Theorem uint8_array_is_imported_unchanged :
  forall (a : ndarray) (w : World),
    DType_eqb (dtype a) uint8 = true ->
    (exists ok,
        log (snd (_convert_to_pil (PyArray a) w))
        = log w ++ [mkEvent (Image_fromarray a) ok]) /\
    (faults w = [] ->
     fst (_convert_to_pil (PyArray a) w) = Ok (array_image (cfg w) a)).
Proof.
  intros a w Hd. break_world w.
  unfold _convert_to_pil. autounfold with py. cbn. rewrite Hd.
  repeat py_step;
    (split; [eexists; reflexivity | intros H; try discriminate H; reflexivity]).
Qed.

Lemma uint8_array_is_imported_unchanged_witness :
  fst (_convert_to_pil
         (PyArray (mkArray uint8 [1; 1; 3]%nat [1; 2; 3]%Q))
         (fresh_world (1, 26)%nat []))
  = Ok (Some (mkImage ModeRGB 1 1 [x01; x02; x03])).
Proof.
  refine (proj2 (@uint8_array_is_imported_unchanged
                   (mkArray uint8 [1; 1; 3]%nat [1; 2; 3]%Q)
                   (fresh_world (1, 26)%nat []) eq_refl) eq_refl).
Defined.

(** ** The hidden window, continued *)

Lemma close_never_raises :
  forall (self : ClipboardManager) (w : World), fst (close self w) = Ok tt.
Proof.
  intros self w. break_manager self. break_world w.
  unfold close. py_run; reflexivity.
Qed.

Lemma close_kills_window :
  forall (self : ClipboardManager) (root : nat) (w : World),
    _tk_root self = Some root ->
    faults w = [] ->
    alive root (snd (close self w)) = false /\
    faults (snd (close self w)) = [] /\
    clip (snd (close self w)) = clip w /\
    heap (snd (close self w)) = heap w /\
    _clipboard_instance (snd (close self w)) = _clipboard_instance w.
Proof.
  intros self root w Hr Hf. break_manager self. break_world w.
  cbn in Hr, Hf. subst. unfold close, alive. autounfold with py. cbn.
  destruct (existsb (Nat.eqb root) live) eqn:Ha; cbn;
    rewrite ?destroyed_is_not_alive, ?Ha; repeat split.
Qed.

(** X14.  A [with] block over a manager ends exactly as its body ends:
    the value is the body's value, an exception of the body is raised
    again ([__exit__] returns [None]); and the world it leaves is the
    one [close()] leaves after the body.  If no host call fails from the
    end of the body on, the manager's window is gone afterwards. *)
Theorem with_block_closes_and_propagates :
  forall (A : Type) (self : ClipboardManager)
         (body : ClipboardManager -> M A) (w : World),
    fst (with_manager self body w) = fst (body self w) /\
    snd (with_manager self body w) = snd (close self (snd (body self w))) /\
    (forall root,
        _tk_root self = Some root ->
        faults (snd (body self w)) = [] ->
        alive root (snd (with_manager self body w)) = false).
Proof.
  intros A self body w.
  assert (E : fst (with_manager self body w) = fst (body self w) /\
              snd (with_manager self body w)
              = snd (close self (snd (body self w)))).
  { unfold with_manager, __enter__, __exit__, bind, ret, raise.
    destruct (body self w) as [[a|e] w1]; cbn;
      pose proof (close_never_raises self w1) as Hc;
      destruct (close self w1) as [r w2]; cbn in Hc; subst r;
      split; reflexivity. }
  destruct E as [E1 E2]. split; [exact E1|]. split; [exact E2|].
  intros root Hr Hf. rewrite E2.
  exact (proj1 (close_kills_window self (snd (body self w)) Hr Hf)).
Qed.

Lemma with_block_closes_and_propagates_witness :
  alive 0 (snd (with_manager gui_only
                  (fun cm => save_text cm (PyStr "owo")) (gui_world [])))
  = false.
Proof.
  refine (proj2 (proj2 (@with_block_closes_and_propagates
                          bool gui_only
                          (fun cm => save_text cm (PyStr "owo"))
                          (gui_world []))) 0 eq_refl eq_refl).
Defined.

Lemma dead_window_serves_nothing :
  forall (self : ClipboardManager) (t : string) (w : World),
    select_text_backend self = Some GuiToolkit ->
    (forall root, _tk_root self = Some root -> alive root w = false) ->
    fst (save_text self (PyStr t) w) = Ok false /\
    clip (snd (save_text self (PyStr t) w)) = clip w /\
    fst (get_text self w) = Ok None.
Proof.
  intros self t w Hs Ha. destruct self as [[|] [|] [|] [root|]];
    try discriminate Hs; break_world w;
    try (specialize (Ha root eq_refl); unfold alive in Ha; cbn in Ha);
    unfold save_text, get_text, alive; autounfold with py; cbn;
    rewrite ?Ha; cbn;
    repeat (py_step; rewrite ?Ha; cbn); repeat split.
Qed.

(** X15.  A manager whose text backend is tkinter is of no use after
    [close()]: when no host call fails, [save_text] then returns False
    and leaves the clipboard as it is, and [get_text] returns [None]. *)
Theorem gui_backend_unusable_after_close :
  forall (self : ClipboardManager) (t : string) (w : World),
    select_text_backend self = Some GuiToolkit ->
    faults w = [] ->
    fst (save_text self (PyStr t) (snd (close self w))) = Ok false /\
    clip (snd (save_text self (PyStr t) (snd (close self w)))) = clip w /\
    fst (get_text self (snd (close self w))) = Ok None.
Proof.
  intros self t w Hs Hf.
  assert (Ha : forall root, _tk_root self = Some root ->
                            alive root (snd (close self w)) = false).
  { intros root Hr. exact (proj1 (close_kills_window self w Hr Hf)). }
  assert (Hc : clip (snd (close self w)) = clip w).
  { destruct (_tk_root self) as [root|] eqn:Hr.
    - exact (proj1 (proj2 (proj2 (close_kills_window self w Hr Hf)))).
    - unfold close. rewrite Hr. reflexivity. }
  destruct (dead_window_serves_nothing self t (snd (close self w)) Hs Ha)
    as (H1 & H2 & H3).
  split; [exact H1|]. split; [congruence | exact H3].
Qed.

Lemma gui_backend_unusable_after_close_witness :
  fst (save_text gui_only (PyStr "owo") (gui_world [])) = Ok true /\
  fst (save_text gui_only (PyStr "owo")
         (snd (close gui_only (gui_world [])))) = Ok false.
Proof.
  split; [reflexivity|].
  apply (@gui_backend_unusable_after_close gui_only "owo" (gui_world []));
    reflexivity.
Defined.

Lemma save_text_succeeds :
  forall (self : ClipboardManager) (t : string) (w : World),
    text_backend_ready self w = true ->
    faults w = [] ->
    fst (save_text self (PyStr t) w) = Ok true /\
    clip (snd (save_text self (PyStr t) w)) = ClipText t /\
    faults (snd (save_text self (PyStr t) w)) = [] /\
    tk_live (snd (save_text self (PyStr t) w)) = tk_live w.
Proof.
  intros self t w Hr Hf. revert Hr. break_world w. cbn in Hf. subst.
  destruct self as [[|] [|] [|] [root|]];
    unfold text_backend_ready, alive; cbn; intros Hr; try discriminate Hr;
    unfold save_text, alive; autounfold with py; cbn;
    repeat (rewrite Hr; cbn); repeat split.
Qed.

(** X16.  [close()] takes nothing from a manager served by pyperclip or
    win32: when no host call fails, a [save_text] after it still
    returns True and puts the text on the clipboard. *)
Theorem close_keeps_other_backends_working :
  forall (self : ClipboardManager) (t : string) (w : World),
    select_text_backend self = Some FastTextLib \/
    select_text_backend self = Some NativeApi ->
    faults w = [] ->
    fst (save_text self (PyStr t) (snd (close self w))) = Ok true /\
    clip (snd (save_text self (PyStr t) (snd (close self w)))) = ClipText t.
Proof.
  intros self t w Hs Hf.
  assert (Hf' : faults (snd (close self w)) = []).
  { destruct (_tk_root self) as [root|] eqn:Hr.
    - exact (proj1 (proj2 (close_kills_window self w Hr Hf))).
    - unfold close. rewrite Hr. exact Hf. }
  assert (Hr : text_backend_ready self (snd (close self w)) = true).
  { unfold text_backend_ready. destruct Hs as [-> | ->]; reflexivity. }
  destruct (save_text_succeeds self t (snd (close self w)) Hr Hf')
    as (H1 & H2 & _).
  split; assumption.
Qed.

Lemma close_keeps_other_backends_working_witness :
  clip (snd (save_text native_only (PyStr "owo")
               (snd (close native_only (fresh_world (2, 3)%nat [])))))
  = ClipText "owo".
Proof.
  apply (@close_keeps_other_backends_working native_only "owo"
           (fresh_world (2, 3)%nat [])).
  - right. reflexivity.
  - reflexivity.
Defined.

(** ** Series of writes *)

Lemma save_text_keeps_ready :
  forall (self : ClipboardManager) (t : string) (w : World),
    text_backend_ready self w = true ->
    faults w = [] ->
    text_backend_ready self (snd (save_text self (PyStr t) w)) = true.
Proof.
  intros self t w Hr Hf.
  destruct (save_text_succeeds self t w Hr Hf) as (_ & _ & _ & Hl).
  unfold text_backend_ready, alive in *. rewrite Hl. exact Hr.
Qed.

Lemma bind_ok :
  forall (A B : Type) (m : M A) (k : A -> M B) (w w1 : World) (a : A),
    m w = (Ok a, w1) -> bind m k w = k a w1.
Proof.
  intros A B m k w w1 a H. unfold bind. rewrite H. reflexivity.
Qed.

(** X17.  The last writer wins: when the backend is ready and no host
    call fails, a series of [save_text] calls all return True and
    leave the last text of the series on the clipboard. *)
Theorem save_texts_last_text_wins :
  forall (self : ClipboardManager) (ts : list string) (t : string) (w : World),
    text_backend_ready self w = true ->
    faults w = [] ->
    fst (save_texts self (ts ++ [t]) w)
    = Ok (map (fun _ => true) (ts ++ [t])) /\
    clip (snd (save_texts self (ts ++ [t]) w)) = ClipText t.
Proof.
  intros self ts t. induction ts as [|t0 ts IH]; intros w Hr Hf.
  - destruct (save_text_succeeds self t w Hr Hf) as (H1 & H2 & _).
    change (save_texts self ([] ++ [t]) w)
      with (bind (save_text self (PyStr t))
                 (fun b => bind (ret []) (fun bs => ret (b :: bs))) w).
    destruct (save_text self (PyStr t) w) as [r w1] eqn:E.
    cbn in H1, H2. subst r. rewrite (@bind_ok _ _ _ _ _ _ _ E).
    split; [reflexivity | exact H2].
  - pose proof (save_text_keeps_ready self t0 w Hr Hf) as Hr1.
    destruct (save_text_succeeds self t0 w Hr Hf) as (H1 & _ & Hf1 & _).
    change (save_texts self ((t0 :: ts) ++ [t]) w)
      with (bind (save_text self (PyStr t0))
                 (fun b => bind (save_texts self (ts ++ [t]))
                                (fun bs => ret (b :: bs))) w).
    destruct (save_text self (PyStr t0) w) as [r w1] eqn:E.
    cbn in H1, Hf1, Hr1. subst r. rewrite (@bind_ok _ _ _ _ _ _ _ E).
    destruct (IH w1 Hr1 Hf1) as [I1 I2].
    destruct (save_texts self (ts ++ [t]) w1) as [rs w2] eqn:E2.
    cbn in I1, I2. subst rs. rewrite (@bind_ok _ _ _ _ _ _ _ E2).
    split; [reflexivity | exact I2].
Qed.

Lemma save_texts_last_text_wins_witness :
  clip (snd (save_texts native_only (["a"; "b"] ++ ["c"])
               (fresh_world (2, 3)%nat []))) = ClipText "c".
Proof.
  apply (@save_texts_last_text_wins native_only ["a"; "b"] "c"
           (fresh_world (2, 3)%nat [])); reflexivity.
Defined.

(** ** The clipboard lock, continued *)

(** X18.  The read path and the image path give the lock back: if the
    clipboard was not open when [get_text] or [save_image] was called
    and is open when it returns, then the last host call of the
    operation was a [CloseClipboard] that failed. *)
Theorem read_and_image_paths_release_the_lock :
  forall (self : ClipboardManager) (v : PyObj) (w : World),
    clip_open w = false ->
    (clip_open (snd (get_text self w)) = true ->
     exists l, log (snd (get_text self w))
               = l ++ [mkEvent CloseClipboard false]) /\
    (clip_open (snd (save_image self v w)) = true ->
     exists l, log (snd (save_image self v w))
               = l ++ [mkEvent CloseClipboard false]).
Proof.
  intros self v w Hop. split.
  - apply get_text_closes_clipboard. exact Hop.
  - apply save_image_closes_clipboard. exact Hop.
Qed.

Lemma read_and_image_paths_release_the_lock_witness :
  exists l,
    log (snd (get_text native_only
                (fresh_world (2, 3)%nat [false; false; true])))
    = l ++ [mkEvent CloseClipboard false].
Proof.
  apply (@read_and_image_paths_release_the_lock
           native_only PyNone
           (fresh_world (2, 3)%nat [false; false; true]) eq_refl).
  reflexivity.
Defined.

(** ** Reading *)

Lemma get_text_reads_clipboard_text_aux :
  forall (self : ClipboardManager) (s : string) (w : World),
    text_backend_ready self w = true ->
    faults w = [] ->
    clip w = ClipText s ->
    fst (get_text self w)
    = Ok (match select_text_backend self with
          | Some NativeApi => if str_truthy s then Some s else None
          | _ => Some s
          end).
Proof.
  intros self s w Hr Hf Hc. revert Hr. break_world w. cbn in Hf, Hc. subst.
  destruct self as [[|] [|] [|] [root|]];
    unfold text_backend_ready, alive; cbn; intros Hr; try discriminate Hr;
    unfold get_text, alive; autounfold with py; cbn;
    repeat (rewrite Hr; cbn); reflexivity.
Qed.


(** X19.  When the backend is ready and no host call fails,
    [get_text] returns the text that is on the clipboard - except that
    win32 reports an empty text as [None]. *)
Theorem get_text_reads_clipboard_text :
  forall (self : ClipboardManager) (s : string) (w : World),
    text_backend_ready self w = true ->
    faults w = [] ->
    clip w = ClipText s ->
    fst (get_text self w)
    = Ok (match select_text_backend self with
          | Some NativeApi => if str_truthy s then Some s else None
          | _ => Some s
          end).
Proof.
  exact get_text_reads_clipboard_text_aux.
Qed.

Lemma get_text_reads_clipboard_text_witness :
  fst (get_text gui_only
         (snd (save_text gui_only (PyStr "owo") (gui_world []))))
  = Ok (Some "owo").
Proof.
  apply (@get_text_reads_clipboard_text gui_only "owo"
           (snd (save_text gui_only (PyStr "owo") (gui_world []))));
    reflexivity.
Defined.

(** ** The module-level singleton, continued *)

Lemma close_keeps_objects :
  forall self, keeps_objects (close self).
Proof.
  intros self w. break_manager self. break_world w.
  unfold close; py_run; split; reflexivity.
Qed.

(** X20.  Closing the singleton does not reset the module global:
    [get_clipboard()] afterwards still returns the closed manager, no
    new one is built, and the helpers keep going to it. *)
Theorem closed_singleton_is_kept :
  forall (w : World) (id : nat) (m : ClipboardManager),
    singleton_is id m w ->
    get_clipboard (snd (close m w)) = (Ok id, snd (close m w)) /\
    heap (snd (close m w)) = heap w /\
    (forall v, copy_text v (snd (close m w))
               = save_text m v (snd (close m w))) /\
    paste_text (snd (close m w)) = get_text m (snd (close m w)).
Proof.
  intros w id m [Hi Hm].
  destruct (close_keeps_objects m w) as [Hh Hg].
  assert (Hs : singleton_is id m (snd (close m w)))
    by (unfold singleton_is; rewrite Hh, Hg; split; assumption).
  destruct (get_clipboard_later_calls Hs) as (H1 & H2 & _ & H4 & _).
  split; [exact H1|]. split; [exact Hh|]. split; assumption.
Qed.

Lemma closed_singleton_is_kept_witness :
  fst (get_clipboard
         (snd (close (mkManager true true true (Some 0%nat))
                 (snd (get_clipboard (fresh_world (2, 3)%nat []))))))
  = Ok 0.
Proof.
  assert (Hs : singleton_is 0 (mkManager true true true (Some 0%nat))
                 (snd (get_clipboard (fresh_world (2, 3)%nat []))))
    by (split; reflexivity).
  rewrite (proj1 (closed_singleton_is_kept Hs)). reflexivity.
Defined.

Lemma helpers_on_first_use :
  forall w : World,
    _clipboard_instance w = None ->
    exists m,
      fst (__init__ w) = Ok m /\
      singleton_is (List.length (heap w)) m (snd (get_clipboard w)) /\
      heap (snd (get_clipboard w)) = heap w ++ [m] /\
      (forall v, copy_text v w = save_text m v (snd (get_clipboard w))) /\
      (forall v, copy_image v w = save_image m v (snd (get_clipboard w))) /\
      paste_text w = get_text m (snd (get_clipboard w)) /\
      clear_clipboard w = clear m (snd (get_clipboard w)).
Proof.
  intros w Hi.
  destruct (get_clipboard_first_call w Hi) as (m & Hm & Hid & Hheap & Hs).
  exists m. split; [exact Hm|]. split; [exact Hs|]. split; [exact Hheap|].
  assert (Hd : deref (List.length (heap w)) (snd (get_clipboard w))
               = (Ok m, snd (get_clipboard w)))
    by (unfold deref; rewrite (proj2 Hs); reflexivity).
  unfold copy_text, copy_image, paste_text, clear_clipboard, bind.
  destruct (get_clipboard w) as [r w1]. cbn in Hid, Hd. subst r.
  rewrite Hd. repeat split.
Qed.

Lemma serve_first_request :
  forall (rq : Request) (w : World),
    _clipboard_instance w = None ->
    exists m,
      fst (__init__ w) = Ok m /\
      singleton_is (List.length (heap w)) m (snd (serve rq w)) /\
      heap (snd (serve rq w)) = heap w ++ [m].
Proof.
  intros rq w Hi.
  destruct (helpers_on_first_use w Hi)
    as (m & Hm & Hs & Hheap & Hct & Hci & Hp & Hc).
  exists m. split; [exact Hm|].
  assert (K : forall A (op : M A) (r : Res A * World),
             keeps_objects op ->
             r = op (snd (get_clipboard w)) ->
             singleton_is (List.length (heap w)) m
                          (snd (match r with
                                | (Ok a, w1) => ret tt w1
                                | (Raise e, w1) => (Raise e, w1)
                                end)) /\
             heap (snd (match r with
                        | (Ok a, w1) => ret tt w1
                        | (Raise e, w1) => (Raise e, w1)
                        end)) = heap w ++ [m]).
  { intros A op r Hk ->. destruct (Hk (snd (get_clipboard w))) as [Hh Hg].
    destruct Hs as [Hs1 Hs2].
    destruct (op (snd (get_clipboard w))) as [[a|e] w1]; cbn in *;
      unfold singleton_is; rewrite Hh, Hg; repeat split; assumption. }
  destruct rq as [|v|v| |]; cbn [serve]; unfold bind.
  - destruct (get_clipboard_first_call w Hi) as (m' & _ & Hid & _ & _).
    destruct (get_clipboard w) as [r w1]. cbn in Hid, Hs, Hheap. subst r.
    unfold ret. cbn. split; assumption.
  - rewrite Hct. apply (K _ (save_text m v)); [apply save_text_keeps_objects|reflexivity].
  - rewrite Hci. apply (K _ (save_image m v)); [apply save_image_keeps_objects|reflexivity].
  - rewrite Hp. apply (K _ (get_text m)); [apply get_text_keeps_objects|reflexivity].
  - rewrite Hc. apply (K _ (clear m)); [apply clear_keeps_objects|reflexivity].
Qed.

(** X21.  However many helper calls a fresh process makes, it builds
    exactly one manager: after a non-empty series of requests the heap
    has grown by the one manager the first request constructed, and
    that manager is the singleton. *)
Theorem helpers_build_exactly_one_manager :
  forall (rq : Request) (rqs : list Request) (w : World),
    _clipboard_instance w = None ->
    exists m,
      fst (__init__ w) = Ok m /\
      heap (snd (serve_all (rq :: rqs) w)) = heap w ++ [m] /\
      singleton_is (List.length (heap w)) m (snd (serve_all (rq :: rqs) w)).
Proof.
  intros rq rqs w Hi.
  destruct (serve_first_request rq w Hi) as (m & Hm & Hs & Hheap).
  exists m. split; [exact Hm|].
  cbn [serve_all]. unfold bind.
  destruct (serve rq w) as [[u|e] w1]; cbn in Hs, Hheap |- *.
  - destruct (serve_all_keeps_singleton rqs Hs) as [Hs' Hh'].
    split; [congruence | exact Hs'].
  - split; assumption.
Qed.

Lemma helpers_build_exactly_one_manager_witness :
  List.length
    (heap (snd (serve_all [rq_copy_text (PyStr "owo"); rq_paste_text;
                           rq_clear_clipboard; rq_get_clipboard]
                          (fresh_world (2, 3)%nat [])))) = 1.
Proof.
  destruct (@helpers_build_exactly_one_manager
              (rq_copy_text (PyStr "owo"))
              [rq_paste_text; rq_clear_clipboard; rq_get_clipboard]
              (fresh_world (2, 3)%nat []) eq_refl)
    as (m & _ & Hheap & _).
  rewrite Hheap. reflexivity.
Defined.

Lemma first_manager_with_pyperclip :
  forall w : World,
    _clipboard_instance w = None ->
    importable (cfg w) FastTextLib = true ->
    faults w = [] ->
    exists m,
      fst (__init__ w) = Ok m /\
      _has_pyperclip m = true /\
      faults (snd (get_clipboard w)) = [].
Proof.
  intros w Hi Hp Hf. break_world w. cbn in Hi, Hp, Hf. subst.
  unfold get_clipboard, __init__. autounfold with py. cbn.
  repeat (rewrite ?Hp, ?Nat.eqb_refl; cbn; py_step);
    rewrite ?Hp, ?Nat.eqb_refl; cbn;
    eexists; repeat split.
Qed.

(** X22.  In a fresh process with pyperclip installed and no failing
    host call, [copy_text(t)] followed by [paste_text()] returns [t]:
    the first helper builds the manager, both go through it. *)
Theorem copy_text_then_paste_text :
  forall (t : string) (w : World),
    _clipboard_instance w = None ->
    importable (cfg w) FastTextLib = true ->
    faults w = [] ->
    fst (copy_text (PyStr t) w) = Ok true /\
    fst (paste_text (snd (copy_text (PyStr t) w))) = Ok (Some t).
Proof.
  intros t w Hi Hp Hf.
  destruct (helpers_on_first_use w Hi)
    as (m & Hm & Hs & _ & Hct & _ & _ & _).
  destruct (first_manager_with_pyperclip w Hi Hp Hf)
    as (m' & Hm' & Hpy & Hf1).
  assert (m' = m) by congruence. subst m'.
  assert (Hsel : select_text_backend m = Some FastTextLib)
    by (unfold select_text_backend, text_priority; cbn; rewrite Hpy; reflexivity).
  assert (Hr : forall w', text_backend_ready m w' = true)
    by (intros w'; unfold text_backend_ready; rewrite Hsel; reflexivity).
  rewrite Hct.
  destruct (save_text_succeeds m t (snd (get_clipboard w)) (Hr _) Hf1)
    as (H1 & H2 & H3 & _).
  split; [exact H1|].
  destruct (save_text_keeps_objects m (PyStr t) (snd (get_clipboard w)))
    as [Hh Hg].
  assert (Hs2 : singleton_is (List.length (heap w)) m
                  (snd (save_text m (PyStr t) (snd (get_clipboard w)))))
    by (destruct Hs as [Hs1 Hs2]; unfold singleton_is;
        rewrite Hh, Hg; split; assumption).
  destruct (get_clipboard_later_calls Hs2) as (_ & _ & _ & Hpaste & _).
  rewrite Hpaste.
  rewrite (@get_text_reads_clipboard_text_aux m t _ (Hr _) H3 H2), Hsel.
  reflexivity.
Qed.

Lemma copy_text_then_paste_text_witness :
  fst (paste_text (snd (copy_text (PyStr "owo")
                          (fresh_world (2, 3)%nat [])))) = Ok (Some "owo").
Proof.
  apply (@copy_text_then_paste_text "owo" (fresh_world (2, 3)%nat []));
    reflexivity.
Defined.
